(** * LittleLemonAPI: carts, orders and role-scoped views

    A shallow embedding of [LittleLemonAPI/permissions.py],
    [LittleLemonAPI/serializers.py] and [LittleLemonAPI/views.py].

    The relational tables are lists of rows, a queryset is the list of rows
    it selects, and a handler is a function from the database to a response
    (or an exception) and the database it leaves behind.  Decimal amounts are
    exact in Python; they are counted here in minor units, as [Z]. *)

From Stdlib Require Import ZArith List String Bool Lia Permutation.
From Stdlib Require Import DecimalString.
Import ListNotations.
Local Open Scope string_scope.
Local Open Scope list_scope.
Local Open Scope Z_scope.

(** ** Rows *)

(** [django.contrib.auth.models.User], with the fields of [UserSerializer]. *)
Record User := mkUser {
  user_id : Z;
  username : string;
  email : string
}.

(** [django.contrib.auth.models.Group] with its [user_set] relation, kept as
    the ids of the member users. *)
Record Group := mkGroup {
  group_name : string;
  user_set : list Z
}.

(** Modelled from the spec: [models.py] is not part of the sources; the
    fields are those of section 3 and of [MenuItemSerializer.Meta.fields]. *)
Record MenuItem := mkMenuItem {
  mi_id : Z;
  mi_title : string;
  mi_price : Z;
  mi_category : Z;
  mi_featured : bool
}.

(** Modelled from the spec: [models.py] is not part of the sources; the
    fields are those of section 3 and of [CartSerializer.Meta.fields]. *)
Record Cart := mkCart {
  cart_user : Z;
  cart_menuitem : Z;
  cart_quantity : Z;
  cart_unit_price : Z;
  cart_price : Z
}.

(** Modelled from the spec: [models.py] is not part of the sources; the
    fields are those of section 3 and of [OrderSerializer.Meta.fields]. *)
Record Order := mkOrder {
  order_id : Z;
  order_user : Z;
  order_delivery_crew : option Z;
  order_status : Z;
  order_total : Z;
  order_date : Z
}.

(** Modelled from the spec: [models.py] is not part of the sources; the
    fields are those of section 3 and the keywords of the [OrderItem(...)]
    call in [OrderSerializer.create]. *)
Record OrderItem := mkOrderItem {
  oi_order : Z;
  oi_menuitem : Z;
  oi_quantity : Z;
  oi_unit_price : Z;
  oi_price : Z
}.

(** What [Order.objects.create(user=..., total=...)] fills in for the fields
    it is not given: the model defaults and the clock, declared in
    [models.py]. *)
Record OrderDefaults := mkOrderDefaults {
  default_delivery_crew : option Z;
  default_status : Z;
  default_date : Z
}.

(** ** The database *)

(** The tables, and the next values of the key sequences of the [orders] and
    [menuitems] tables.  Category rows are not kept: no handler below reads
    them. *)
Record DB := mkDB {
  users : list User;
  groups : list Group;
  menuitems : list MenuItem;
  carts : list Cart;
  orders : list Order;
  order_items : list OrderItem;
  next_order_id : Z;
  next_menuitem_id : Z
}.

Definition empty_db : DB := mkDB [] [] [] [] [] [] 1 1.

Definition set_groups (g : list Group) (db : DB) : DB :=
  mkDB (users db) g (menuitems db) (carts db) (orders db) (order_items db)
       (next_order_id db) (next_menuitem_id db).

Definition set_menuitems (m : list MenuItem) (n : Z) (db : DB) : DB :=
  mkDB (users db) (groups db) m (carts db) (orders db) (order_items db)
       (next_order_id db) n.

Definition set_carts (c : list Cart) (db : DB) : DB :=
  mkDB (users db) (groups db) (menuitems db) c (orders db) (order_items db)
       (next_order_id db) (next_menuitem_id db).

Definition set_orders (o : list Order) (n : Z) (db : DB) : DB :=
  mkDB (users db) (groups db) (menuitems db) (carts db) o (order_items db) n
       (next_menuitem_id db).

Definition set_order_items (i : list OrderItem) (db : DB) : DB :=
  mkDB (users db) (groups db) (menuitems db) (carts db) (orders db) i
       (next_order_id db) (next_menuitem_id db).

(** ** Exceptions and responses *)

(** The [detail] of a [ValidationError]: a bare list of messages, or messages
    under a field name ([non_field_errors] for serializer-level ones).
    Messages the framework writes itself are given by their error code. *)
Inductive ErrorDetail :=
| ErrList (messages : list string)
| ErrDict (field : string) (messages : list string).

Inductive Exn :=
| ValidationError (detail : ErrorDetail)
| PermissionDenied (message : string)
| Http404
| MethodNotAllowed
| DoesNotExist (model : string)
| MultipleObjectsReturned (model : string).

(** An order as the order views send it: the serialized order with its
    [order_items] entry. *)
Record OrderData := mkOrderData {
  od_order : Order;
  od_order_items : list OrderItem
}.

Inductive Body :=
| NoBody
| Dict (key value : string)
| Errors (detail : ErrorDetail)
| CartBody (c : Cart)
| CartListBody (l : list Cart)
| OrderBody (o : Order)
| OrderDataBody (o : OrderData)
| OrderListBody (l : list OrderData)
| UserListBody (l : list User)
| MenuItemBody (m : MenuItem)
| MenuItemListBody (l : list MenuItem).

Record Response := mkResponse {
  status_code : Z;
  data : Body
}.

Definition HTTP_200_OK : Z := 200.
Definition HTTP_201_CREATED : Z := 201.
Definition HTTP_204_NO_CONTENT : Z := 204.
Definition HTTP_400_BAD_REQUEST : Z := 400.
Definition HTTP_403_FORBIDDEN : Z := 403.
Definition HTTP_404_NOT_FOUND : Z := 404.
Definition HTTP_405_METHOD_NOT_ALLOWED : Z := 405.
Definition HTTP_500_INTERNAL_SERVER_ERROR : Z := 500.

(** ** Handlers: state and exceptions

    A computation reads and writes the database and either returns or raises.
    What was written before a [raise] stays written. *)

Definition M (A : Type) : Type := DB -> (Exn + A) * DB.

Definition ret {A} (a : A) : M A := fun db => (inr a, db).

Definition raise {A} (e : Exn) : M A := fun db => (inl e, db).

Definition bind {A B} (m : M A) (k : A -> M B) : M B :=
  fun db =>
    match m db with
    | (inl e, db') => (inl e, db')
    | (inr a, db') => k a db'
    end.

Definition get_db : M DB := fun db => (inr db, db).

Definition modify (f : DB -> DB) : M unit := fun db => (inr tt, f db).

(** [try m except h]: every exception [h] answers is caught, the others go on. *)
Definition try_except {A} (m : M A) (h : Exn -> option (M A)) : M A :=
  fun db =>
    match m db with
    | (inl e, db') =>
        match h e with
        | Some k => k db'
        | None => (inl e, db')
        end
    | r => r
    end.

Declare Scope handler_scope.
Delimit Scope handler_scope with handler.
Notation "x <- m ;; k" := (bind m (fun x => k))
  (at level 61, m at next level, right associativity) : handler_scope.
Notation "m ;;; k" := (bind m (fun _ => k))
  (at level 61, right associativity) : handler_scope.

(** The framework's exception handler: what the client gets when a handler
    raises.  An exception that is not an API exception is a server error. *)
Definition exception_handler (e : Exn) : Response :=
  match e with
  | ValidationError d => mkResponse HTTP_400_BAD_REQUEST (Errors d)
  | PermissionDenied m => mkResponse HTTP_403_FORBIDDEN (Dict "detail" m)
  | Http404 => mkResponse HTTP_404_NOT_FOUND (Dict "detail" "Not found.")
  | MethodNotAllowed =>
      mkResponse HTTP_405_METHOD_NOT_ALLOWED (Dict "detail" "method_not_allowed")
  | DoesNotExist _ | MultipleObjectsReturned _ =>
      mkResponse HTTP_500_INTERNAL_SERVER_ERROR NoBody
  end.

(** A view, run on a database: the response and the database afterwards. *)
Definition dispatch (h : M Response) (db : DB) : Response * DB :=
  match h db with
  | (inl e, db') => (exception_handler e, db')
  | (inr r, db') => (r, db')
  end.

(** ** Querysets *)

(** [qs.get(...)] on the rows a lookup selected. *)
Definition objects_get {A} (model : string) (rows : list A) : Exn + A :=
  match rows with
  | [] => inl (DoesNotExist model)
  | [r] => inr r
  | _ => inl (MultipleObjectsReturned model)
  end.

(** [qs.exists()] *)
Definition qs_exists {A} (rows : list A) : bool :=
  match rows with
  | [] => false
  | _ :: _ => true
  end.

(** [sum(xs)] of Python, from the left and from [0]. *)
Definition sum (xs : list Z) : Z := fold_left Z.add xs 0.

(** [str.format] of an integer. *)
Definition format_int (n : Z) : string := NilZero.string_of_int (Z.to_int n).

(** ** permissions.py *)

(** [user.groups.filter(name=...)]: the groups of that name the user is a
    member of. *)
Definition user_groups_filter (name : string) (u : User) (db : DB) : list Group :=
  filter (fun g => (group_name g =? name)%string
                   && existsb (Z.eqb (user_id u)) (user_set g))
         (groups db).

(** The permission classes of the views.  A request carries the user the
    authentication step found, so [IsAuthenticated] holds of every caller. *)
Inductive Permission :=
| AllowAny
| IsAuthenticated
| IsManager
| IsCustomer
| IsDeliveryCrew
| OR (p q : Permission).

Fixpoint has_permission (p : Permission) (u : User) (db : DB) : bool :=
  match p with
  | AllowAny | IsAuthenticated => true
  | IsManager => qs_exists (user_groups_filter "manager" u db)
  | IsCustomer => qs_exists (user_groups_filter "customer" u db)
  | IsDeliveryCrew => qs_exists (user_groups_filter "delivery_crew" u db)
  | OR p q => has_permission p u db || has_permission q u db
  end.

Definition message (p : Permission) : string :=
  match p with
  | IsManager => "You don't have right permission to perfom this action."
  | IsCustomer | IsDeliveryCrew =>
      "You don't have right permission to perform this action."
  | AllowAny | IsAuthenticated | OR _ _ =>
      "You do not have permission to perform this action."
  end.

(** [APIView.check_permissions]: the first permission that fails denies the
    request with its message. *)
Fixpoint check_permissions (ps : list Permission) (u : User) : M unit :=
  match ps with
  | [] => ret tt
  | p :: ps' =>
      fun db =>
        if has_permission p u db then check_permissions ps' u db
        else raise (PermissionDenied (message p)) db
  end.

Inductive Method := GET | POST | PUT | PATCH | DELETE.

(** The writable fields of [MenuItemSerializer]. *)
Record MenuItemData := mkMenuItemData {
  mid_title : string;
  mid_price : Z;
  mid_category : Z;
  mid_featured : bool
}.

(** The writable fields of [OrderSerializer], each one optional in a request
    body. *)
Record OrderPatch := mkOrderPatch {
  patch_delivery_crew : option (option Z);
  patch_status : option Z
}.

(** A request to a roster view: the list, with the [pk] of the URL if it has
    one, the addition of a username, the removal of an id. *)
Inductive RosterRequest :=
| RosterList (pk : option Z)
| RosterAdd (username_ : string)
| RosterRemove (pk : Z).

(** What [settings.py] and [models.py], which are not part of the sources,
    decide for the views: the filter backends applied to an order queryset
    and to a user queryset for the request at hand, the permission classes
    of a view that names none, what deleting an order or a menu item does to
    the rows that refer to it ([on_delete]), and what the fields that
    [OrderSerializer] builds from the model for [delivery_crew] and [status]
    find wrong with a body, all of it required or, for [PATCH], in part
    ([None] when the body is valid). *)
Record Project := mkProject {
  filter_queryset : list Order -> list Order;
  filter_users : list User -> list User;
  DEFAULT_PERMISSION_CLASSES : list Permission;
  Order_delete : Order -> DB -> DB;
  MenuItem_delete : MenuItem -> DB -> DB;
  Order_field_errors : bool -> OrderPatch -> DB -> option ErrorDetail
}.

(** ** serializers.py *)

Module CartSerializer.

(** The request body: the writable fields, [menuitem] as a primary key. *)
Record Data := mkData {
  data_menuitem : Z;
  data_quantity : Z
}.

(** [attrs] and [validated_data]: the hidden [user] field filled with the
    current user, and [menuitem] resolved to its row. *)
Record Attrs := mkAttrs {
  attrs_user : User;
  attrs_menuitem : MenuItem;
  attrs_quantity : Z
}.

(** Field validation: [menuitem] is looked up by primary key. *)
Definition to_internal_value (u : User) (d : Data) : M Attrs :=
  fun db =>
    match objects_get "MenuItem"
            (filter (fun m => mi_id m =? data_menuitem d) (menuitems db)) with
    | inr m => ret (mkAttrs u m (data_quantity d)) db
    | inl (DoesNotExist _) =>
        raise (ValidationError (ErrDict "menuitem" ["does_not_exist"])) db
    | inl e => raise e db
    end.

(** [Meta.validators]: the [UniqueTogetherValidator] on [user], [menuitem]
    over [Cart.objects.all()]. *)
Definition run_validators (a : Attrs) : M unit :=
  fun db =>
    if qs_exists
         (filter (fun c => (cart_user c =? user_id (attrs_user a))
                           && (cart_menuitem c =? mi_id (attrs_menuitem a)))
                 (carts db))
    then raise (ValidationError
                  (ErrDict "non_field_errors" ["Item is already in the cart."]))
               db
    else ret tt db.

Definition validate (a : Attrs) : M Attrs :=
  if attrs_quantity a <=? 0
  then raise (ValidationError
                (ErrDict "non_field_errors"
                         ["Quantity cannot be 0 or less than 0."]))
  else ret a.

(** [Serializer.run_validation]: the fields, then the validators, then
    [validate]. *)
Definition run_validation (u : User) (d : Data) : M Attrs :=
  (a <- to_internal_value u d ;;
   run_validators a ;;;
   validate a)%handler.

Definition create (validated_data : Attrs) : M Cart :=
  let unit_price := mi_price (attrs_menuitem validated_data) in
  let price := unit_price * attrs_quantity validated_data in
  let instance :=
    mkCart (user_id (attrs_user validated_data))
           (mi_id (attrs_menuitem validated_data))
           (attrs_quantity validated_data) unit_price price in
  (modify (fun db => set_carts (carts db ++ [instance]) db) ;;;
   ret instance)%handler.

(** [is_valid(raise_exception=True)] and [save()], as [CreateModelMixin]
    calls them. *)
Definition save (u : User) (d : Data) : M Cart :=
  (validated_data <- run_validation u d ;;
   create validated_data)%handler.

End CartSerializer.

Module OrderSerializer.

(** [is_valid(raise_exception=True)]: the writable fields [delivery_crew]
    and [status] of the body are validated; [partial] is set for [PATCH]. *)
Definition run_validation (cfg : Project) (partial : bool) (body : OrderPatch)
  : M OrderPatch :=
  fun db =>
    match Order_field_errors cfg partial body db with
    | Some detail => raise (ValidationError detail) db
    | None => ret body db
    end.

(** [create] reads nothing of [validated_data]; the user is the one of the
    request in the serializer's context. *)
Definition create (dflt : OrderDefaults) (user : User) : M Order :=
  fun db =>
    if negb (qs_exists (filter (fun c => cart_user c =? user_id user) (carts db)))
    then raise (ValidationError (ErrList ["Cart is empty"])) db
    else
      let carts_qs := filter (fun c => cart_user c =? user_id user) (carts db) in
      let total := sum (map cart_price carts_qs) in
      let order :=
        mkOrder (next_order_id db) (user_id user)
                (default_delivery_crew dflt) (default_status dflt)
                total (default_date dflt) in
      let db1 := set_orders (orders db ++ [order]) (next_order_id db + 1) db in
      let order_items_new :=
        fold_left
          (fun acc cart =>
             acc ++ [mkOrderItem (order_id order) (cart_menuitem cart)
                                 (cart_quantity cart) (cart_unit_price cart)
                                 (cart_price cart)])
          carts_qs [] in
      let db2 := set_order_items (order_items db1 ++ order_items_new) db1 in
      let db3 :=
        set_carts
          (filter (fun c => negb (cart_user c =? user_id user)) (carts db2))
          db2 in
      ret order db3.

End OrderSerializer.

(** ** views.py *)

Module CartView.

Definition get_permissions (method : Method) : list Permission :=
  match method with
  | GET | POST | DELETE => [IsCustomer]
  | _ => [IsAuthenticated]
  end.

Definition get_queryset (user : User) (db : DB) : list Cart :=
  filter (fun c => cart_user c =? user_id user) (carts db).

Definition get (user : User) : M Response :=
  (db <- get_db ;;
   ret (mkResponse HTTP_200_OK (CartListBody (get_queryset user db))))%handler.

Definition post (user : User) (d : CartSerializer.Data) : M Response :=
  (instance <- CartSerializer.save user d ;;
   ret (mkResponse HTTP_201_CREATED (CartBody instance)))%handler.

Definition delete (user : User) : M Response :=
  fun db =>
    if negb (qs_exists (get_queryset user db))
    then ret (mkResponse HTTP_400_BAD_REQUEST
                         (Dict "message" "Cart is already empty.")) db
    else
      (modify (fun db =>
                 set_carts
                   (filter (fun c => negb (cart_user c =? user_id user))
                           (carts db))
                   db) ;;;
       ret (mkResponse HTTP_200_OK NoBody))%handler db.

(** The view on a request: the permissions, then the method's handler. *)
Definition view (method : Method) (user : User) (d : CartSerializer.Data)
  : M Response :=
  (check_permissions (get_permissions method) user ;;;
   match method with
   | GET => get user
   | POST => post user d
   | DELETE => delete user
   | PUT | PATCH => raise MethodNotAllowed
   end)%handler.

End CartView.

Module GroupUsersView.

Section Roster.

Variable cfg : Project.

(** The class attribute the two subclasses set. *)
Variable group_name_ : string.

Definition get_queryset (pk : option Z) : M (list User) :=
  fun db =>
    match objects_get "Group"
            (filter (fun g => (group_name g =? group_name_)%string)
                    (groups db)) with
    | inl e => raise e db
    | inr group =>
        let members :=
          filter (fun u => existsb (Z.eqb (user_id u)) (user_set group))
                 (users db) in
        match pk with
        | Some k => ret (filter (fun u => user_id u =? k) members) db
        | None => ret members db
        end
    end.

(** [Group.objects.get_or_create(name=...)] *)
Definition get_or_create : M Group :=
  fun db =>
    match objects_get "Group"
            (filter (fun g => (group_name g =? group_name_)%string)
                    (groups db)) with
    | inr group => ret group db
    | inl (DoesNotExist _) =>
        let group := mkGroup group_name_ [] in
        ret group (set_groups (groups db ++ [group]) db)
    | inl e => raise e db
    end.

(** [group.user_set.add(user)]: a member is not added twice. *)
Definition user_set_add (group : Group) (user : User) : M unit :=
  modify (fun db =>
    set_groups
      (map (fun g =>
              if (group_name g =? group_name group)%string
              then if existsb (Z.eqb (user_id user)) (user_set g) then g
                   else mkGroup (group_name g) (user_set g ++ [user_id user])
              else g)
           (groups db))
      db).

(** [group.user_set.remove(user)] *)
Definition user_set_remove (group : Group) (user : User) : M unit :=
  modify (fun db =>
    set_groups
      (map (fun g =>
              if (group_name g =? group_name group)%string
              then mkGroup (group_name g)
                           (filter (fun i => negb (i =? user_id user))
                                   (user_set g))
              else g)
           (groups db))
      db).

Definition post (username_ : string) : M Response :=
  fun db =>
    match objects_get "User"
            (filter (fun u => (username u =? username_)%string) (users db)) with
    | inl (DoesNotExist _) =>
        ret (mkResponse HTTP_400_BAD_REQUEST
               (Dict "error"
                  ("User with username " ++ username_ ++ " does not exist")))
            db
    | inl e => raise e db
    | inr user =>
        (group <- get_or_create ;;
         user_set_add group user ;;;
         ret (mkResponse HTTP_201_CREATED
                (Dict "success"
                   ("User " ++ username_ ++ " has been added to "
                    ++ group_name_ ++ " group"))))%handler db
    end.

Definition delete (pk : Z) : M Response :=
  try_except
    (fun db =>
       match objects_get "User"
               (filter (fun u => user_id u =? pk) (users db)) with
       | inl e => raise e db
       | inr user =>
           match objects_get "Group"
                   (filter (fun g => (group_name g =? group_name_)%string)
                           (groups db)) with
           | inl e => raise e db
           | inr group =>
               if existsb (Z.eqb (user_id user)) (user_set group)
               then
                 (user_set_remove group user ;;;
                  ret (mkResponse HTTP_200_OK
                         (Dict "success"
                            ("User " ++ username user
                             ++ " has been removed from "
                             ++ group_name_ ++ " group"))))%handler db
               else
                 ret (mkResponse HTTP_400_BAD_REQUEST
                        (Dict "error"
                           ("User " ++ username user
                            ++ " is not a member of "
                            ++ group_name_ ++ " group")))
                     db
           end
       end)
    (fun e =>
       match e with
       | DoesNotExist "User" =>
           Some (ret (mkResponse HTTP_404_NOT_FOUND
                        (Dict "error"
                           ("User with id " ++ format_int pk
                            ++ " does not exist"))))
       | _ => None
       end).

(** [ListModelMixin.list] *)
Definition get (pk : option Z) : M Response :=
  (queryset <- get_queryset pk ;;
   ret (mkResponse HTTP_200_OK (UserListBody (filter_users cfg queryset))))%handler.

(** The view on a request: the class names no permission, so those of the
    settings are checked, then the method's handler runs. *)
Definition view (user : User) (req : RosterRequest) : M Response :=
  (check_permissions (DEFAULT_PERMISSION_CLASSES cfg) user ;;;
   match req with
   | RosterList pk => get pk
   | RosterAdd username_ => post username_
   | RosterRemove pk => delete pk
   end)%handler.

End Roster.

End GroupUsersView.

Module ManagerView.
Definition group_name_ : string := "manager".
Definition post := GroupUsersView.post group_name_.
Definition delete := GroupUsersView.delete group_name_.
Definition view (cfg : Project) := GroupUsersView.view cfg group_name_.
End ManagerView.

Module DeliveryCrewView.
Definition group_name_ : string := "delivery_crew".
Definition post := GroupUsersView.post group_name_.
Definition delete := GroupUsersView.delete group_name_.
Definition view (cfg : Project) := GroupUsersView.view cfg group_name_.
End DeliveryCrewView.

(** [get_object_or_404(queryset, pk=pk)] *)
Definition get_object_or_404 {A} (model : string) (rows : list A) : M A :=
  match objects_get model rows with
  | inr r => ret r
  | inl (DoesNotExist _) => raise Http404
  | inl e => raise e
  end.

(** The [order_items] entry the order views add to a serialized order. *)
Definition with_order_items (db : DB) (o : Order) : OrderData :=
  mkOrderData o (filter (fun i => oi_order i =? order_id o) (order_items db)).

Module MenuItemsView.

Definition get_permissions (method : Method) : list Permission :=
  match method with
  | POST => [IsManager]
  | _ => [IsAuthenticated]
  end.

Definition get : M Response :=
  (db <- get_db ;;
   ret (mkResponse HTTP_200_OK (MenuItemListBody (menuitems db))))%handler.

(** [CreateModelMixin.create]: the new row takes the next key. *)
Definition post (d : MenuItemData) : M Response :=
  fun db =>
    let instance :=
      mkMenuItem (next_menuitem_id db) (mid_title d) (mid_price d)
                 (mid_category d) (mid_featured d) in
    ret (mkResponse HTTP_201_CREATED (MenuItemBody instance))
        (set_menuitems (menuitems db ++ [instance])
                       (next_menuitem_id db + 1) db).

Definition view (method : Method) (user : User) (d : MenuItemData)
  : M Response :=
  (check_permissions (get_permissions method) user ;;;
   match method with
   | GET => get
   | POST => post d
   | _ => raise MethodNotAllowed
   end)%handler.

End MenuItemsView.

Module SingleMenuItemView.

Section Configured.

Variable cfg : Project.

Definition get_permissions (method : Method) : list Permission :=
  match method with
  | PUT | PATCH | DELETE => [IsManager]
  | _ => [IsAuthenticated]
  end.

Definition get_object (pk : Z) : M MenuItem :=
  (db <- get_db ;;
   get_object_or_404 "MenuItem"
     (filter (fun m => mi_id m =? pk) (menuitems db)))%handler.

(** [UpdateModelMixin.update]: the row of that key takes the new fields. *)
Definition update (pk : Z) (d : MenuItemData) : M Response :=
  (instance <- get_object pk ;;
   let instance' :=
     mkMenuItem (mi_id instance) (mid_title d) (mid_price d)
                (mid_category d) (mid_featured d) in
   modify (fun db =>
     set_menuitems
       (map (fun m => if mi_id m =? mi_id instance then instance' else m)
            (menuitems db))
       (next_menuitem_id db) db) ;;;
   ret (mkResponse HTTP_200_OK (MenuItemBody instance')))%handler.

Definition destroy (pk : Z) : M Response :=
  (instance <- get_object pk ;;
   modify (MenuItem_delete cfg instance) ;;;
   ret (mkResponse HTTP_204_NO_CONTENT NoBody))%handler.

Definition view (method : Method) (user : User) (pk : Z) (d : MenuItemData)
  : M Response :=
  (check_permissions (get_permissions method) user ;;;
   match method with
   | GET =>
       instance <- get_object pk ;;
       ret (mkResponse HTTP_200_OK (MenuItemBody instance))
   | PUT | PATCH => update pk d
   | DELETE => destroy pk
   | POST => raise MethodNotAllowed
   end)%handler.

End Configured.

End SingleMenuItemView.

Module OrdersView.

Section Configured.

Variable cfg : Project.
Variable dflt : OrderDefaults.

Definition get_permissions (method : Method) : list Permission :=
  match method with
  | POST => [IsCustomer]
  | _ => [IsAuthenticated]
  end.

(** [self.queryset] starts as the class attribute [Order.objects.all()];
    the first branch whose group the user is in replaces it. *)
Definition get_queryset (user : User) (db : DB) : list Order :=
  let queryset := orders db in
  let queryset :=
    if qs_exists (user_groups_filter "manager" user db)
    then orders db
    else if qs_exists (user_groups_filter "customer" user db)
    then filter (fun o => order_user o =? user_id user) (orders db)
    else if qs_exists (user_groups_filter "delivery_crew" user db)
    then filter (fun o => match order_delivery_crew o with
                          | Some _ => true
                          | None => false
                          end)
                (orders db)
    else queryset in
  queryset.

Definition list (user : User) : M Response :=
  (db <- get_db ;;
   let queryset := filter_queryset cfg (get_queryset user db) in
   ret (mkResponse HTTP_200_OK
          (OrderListBody (map (with_order_items db) queryset))))%handler.

(** [CreateModelMixin.create]: the body is validated, then [perform_create]
    saves the serializer, which calls [OrderSerializer.create]. *)
Definition post (user : User) (body : OrderPatch) : M Response :=
  (OrderSerializer.run_validation cfg false body ;;;
   order <- OrderSerializer.create dflt user ;;
   ret (mkResponse HTTP_201_CREATED (OrderBody order)))%handler.

Definition view (method : Method) (user : User) (body : OrderPatch)
  : M Response :=
  (check_permissions (get_permissions method) user ;;;
   match method with
   | GET => list user
   | POST => post user body
   | _ => raise MethodNotAllowed
   end)%handler.

End Configured.

End OrdersView.

Module SingleOrderView.

Section Configured.

Variable cfg : Project.

Definition get_permissions (method : Method) : list Permission :=
  match method with
  | GET => [OR (OR IsCustomer IsManager) IsDeliveryCrew]
  | PATCH => [OR IsManager IsDeliveryCrew]
  | DELETE => [IsManager]
  | _ => DEFAULT_PERMISSION_CLASSES cfg
  end.

Definition get_queryset (user : User) (db : DB) : list Order :=
  let queryset := orders db in
  let queryset :=
    if qs_exists (user_groups_filter "manager" user db)
    then orders db
    else if qs_exists (user_groups_filter "customer" user db)
    then filter (fun o => order_user o =? user_id user) (orders db)
    else if qs_exists (user_groups_filter "delivery_crew" user db)
    then orders db
    else queryset in
  queryset.

(** [GET] reaches [list]: [ListAPIView] comes first among the bases. *)
Definition list (user : User) (pk : Z) : M Response :=
  fun db =>
    let order_id_ := pk in
    let queryset := filter_queryset cfg (get_queryset user db) in
    match objects_get "Order"
            (filter (fun o => order_id o =? order_id_) queryset) with
    | inl (DoesNotExist _) =>
        ret (mkResponse HTTP_404_NOT_FOUND (Dict "message" "Order not found"))
            db
    | inl e => raise e db
    | inr order =>
        ret (mkResponse HTTP_200_OK
               (OrderDataBody
                  (mkOrderData order
                     (filter (fun i => oi_order i =? order_id_)
                             (order_items db)))))
            db
    end.

Definition get_object (user : User) (pk : Z) : M Order :=
  (db <- get_db ;;
   get_object_or_404 "Order"
     (filter (fun o => order_id o =? pk)
             (filter_queryset cfg (get_queryset user db))))%handler.

(** [UpdateModelMixin.update] with [OrderSerializer]: the object is looked
    up, the body is validated, and the fields the body gives replace those
    of the row. *)
Definition update (partial : bool) (user : User) (pk : Z) (p : OrderPatch)
  : M Response :=
  (instance <- get_object user pk ;;
   OrderSerializer.run_validation cfg partial p ;;;
   let instance' :=
     mkOrder (order_id instance) (order_user instance)
             (match patch_delivery_crew p with
              | Some c => c
              | None => order_delivery_crew instance
              end)
             (match patch_status p with
              | Some s => s
              | None => order_status instance
              end)
             (order_total instance) (order_date instance) in
   modify (fun db =>
     set_orders
       (map (fun o => if order_id o =? order_id instance then instance' else o)
            (orders db))
       (next_order_id db) db) ;;;
   ret (mkResponse HTTP_200_OK (OrderBody instance')))%handler.

Definition destroy (user : User) (pk : Z) : M Response :=
  (instance <- get_object user pk ;;
   modify (Order_delete cfg instance) ;;;
   ret (mkResponse HTTP_204_NO_CONTENT NoBody))%handler.

Definition view (method : Method) (user : User) (pk : Z) (p : OrderPatch)
  : M Response :=
  (check_permissions (get_permissions method) user ;;;
   match method with
   | GET => list user pk
   | PUT => update false user pk p
   | PATCH => update true user pk p
   | DELETE => destroy user pk
   | POST => raise MethodNotAllowed
   end)%handler.

End Configured.

End SingleOrderView.

(** ** The API as a transition system *)

Inductive Roster := Managers | DeliveryCrew.

Definition roster_name (r : Roster) : string :=
  match r with
  | Managers => ManagerView.group_name_
  | DeliveryCrew => DeliveryCrewView.group_name_
  end.

(** A request to one of the views. *)
Inductive Event :=
| CartRequest (method : Method) (user : User) (d : CartSerializer.Data)
| RosterEvent (r : Roster) (user : User) (req : RosterRequest)
| MenuItemsRequest (method : Method) (user : User) (d : MenuItemData)
| SingleMenuItemRequest (method : Method) (user : User) (pk : Z)
                        (d : MenuItemData)
| OrdersRequest (method : Method) (user : User) (body : OrderPatch)
| SingleOrderRequest (method : Method) (user : User) (pk : Z) (p : OrderPatch).

Section Transitions.

Variable cfg : Project.
Variable dflt : OrderDefaults.

Definition handle (ev : Event) : M Response :=
  match ev with
  | CartRequest method user d => CartView.view method user d
  | RosterEvent r user req => GroupUsersView.view cfg (roster_name r) user req
  | MenuItemsRequest method user d => MenuItemsView.view method user d
  | SingleMenuItemRequest method user pk d =>
      SingleMenuItemView.view cfg method user pk d
  | OrdersRequest method user body => OrdersView.view cfg dflt method user body
  | SingleOrderRequest method user pk p =>
      SingleOrderView.view cfg method user pk p
  end.

Definition step (ev : Event) (db : DB) : DB := snd (dispatch (handle ev) db).

(** The databases the API can reach from one with no cart row and no
    order item. *)
Inductive reachable : DB -> Prop :=
| reachable_init db :
    carts db = [] -> order_items db = [] -> reachable db
| reachable_step db ev :
    reachable db -> reachable (step ev db).

End Transitions.

(** ** Properties *)

Definition cart_row_ok (c : Cart) : Prop :=
  cart_price c = cart_unit_price c * cart_quantity c.

Definition order_item_ok (i : OrderItem) : Prop :=
  oi_price i = oi_unit_price i * oi_quantity i.

Definition price_invariant (db : DB) : Prop :=
  Forall cart_row_ok (carts db) /\ Forall order_item_ok (order_items db).

(** A cart row as [CartSerializer.create] makes it in [db]. *)
Definition cart_created_in (db : DB) (c : Cart) : Prop :=
  exists m,
    filter (fun m => mi_id m =? cart_menuitem c) (menuitems db) = [m] /\
    cart_unit_price c = mi_price m /\
    cart_price c = cart_unit_price c * cart_quantity c.

(** An order item as [OrderSerializer.create] makes it in [db]. *)
Definition order_item_created_in (db : DB) (i : OrderItem) : Prop :=
  exists c,
    In c (carts db) /\
    oi_menuitem i = cart_menuitem c /\
    oi_quantity i = cart_quantity c /\
    oi_unit_price i = cart_unit_price c /\
    oi_price i = cart_price c.

(** The pair the [UniqueTogetherValidator] of [CartSerializer] looks at. *)
Definition cart_key (c : Cart) : Z * Z := (cart_user c, cart_menuitem c).

(** No two cart rows for the same user and menu item. *)
Definition cart_unique (db : DB) : Prop := NoDup (map cart_key (carts db)).

(** The order an order item belongs to, and its menu item. *)
Definition item_key (i : OrderItem) : Z * Z := (oi_order i, oi_menuitem i).

(** The rows can be told apart by their keys: no two cart rows for the same
    user and menu item, no two order items for the same order and menu item,
    and every order item belongs to an order whose key has been given out. *)
Definition rows_keyed (db : DB) : Prop :=
  cart_unique db /\
  NoDup (map item_key (order_items db)) /\
  Forall (fun i => oi_order i < next_order_id db) (order_items db).

(** The cart rows of [db'] are cart rows of [db], each as it was and in its
    place, followed by new rows; a new row has a key no cart row of [db]
    has, and is as [CartSerializer.create] makes it in [db]. *)
Definition carts_frozen (db db' : DB) : Prop :=
  exists keep new,
    carts db' = filter keep (carts db) ++ new /\
    NoDup (map cart_key new) /\
    forall c, In c new ->
      (forall c0, In c0 (carts db) -> cart_key c0 <> cart_key c) /\
      cart_created_in db c.

(** The order items of [db'] are order items of [db], each as it was and in
    its place, followed by new items; a new item belongs to the order that
    takes the next key of [db], and is as [OrderSerializer.create] makes it
    in [db]. *)
Definition order_items_frozen (db db' : DB) : Prop :=
  exists keep new,
    order_items db' = filter keep (order_items db) ++ new /\
    NoDup (map item_key new) /\
    forall i, In i new ->
      oi_order i = next_order_id db /\
      next_order_id db < next_order_id db' /\
      order_item_created_in db i.

(** What a request may do to the rows: no row that stays is rewritten. *)
Definition rows_frozen (db db' : DB) : Prop :=
  carts_frozen db db' /\
  order_items_frozen db db' /\
  next_order_id db <= next_order_id db'.

(** [db'] has the cart rows and order items of [db] but for some that are
    gone, and gives out no order key again. *)
Definition removes_rows (db db' : DB) : Prop :=
  (exists keep, carts db' = filter keep (carts db)) /\
  (exists keep, order_items db' = filter keep (order_items db)) /\
  next_order_id db <= next_order_id db'.

(** The filter backends only reorder a queryset. *)
Definition filters_reorder (cfg : Project) : Prop :=
  forall q, Permutation (filter_queryset cfg q) q.

(** Deleting an order or a menu item only removes cart rows and order items. *)
Definition deletes_only (cfg : Project) : Prop :=
  (forall o db, removes_rows db (Order_delete cfg o db)) /\
  (forall m db, removes_rows db (MenuItem_delete cfg m db)).

(** The orders of a response body. *)
Definition listed_orders (r : Response) : list Order :=
  match data r with
  | OrderListBody l => map od_order l
  | OrderDataBody o => [od_order o]
  | OrderBody o => [o]
  | _ => []
  end.

(** The order item [OrderSerializer.create] writes for a cart row. *)
Definition order_item_of (order : Order) (cart : Cart) : OrderItem :=
  mkOrderItem (order_id order) (cart_menuitem cart) (cart_quantity cart)
              (cart_unit_price cart) (cart_price cart).

(** *** Examples *)

(** The cart of the worked example: two pizzas and three cokes. *)
Definition order_create_example_db : DB :=
  mkDB [mkUser 7 "ann" "ann@example.com"] [mkGroup "customer" [7]]
       [mkMenuItem 1 "Pizza" 1000 1 false; mkMenuItem 2 "Coke" 199 1 false]
       [mkCart 7 1 2 1000 2000; mkCart 7 2 3 199 597]
       [] [] 1 3.

(** A project with no filter backend, [IsAuthenticated] as the default
    permission, cascading deletes, and order fields that ask of a body that
    a [delivery_crew] it gives be null or the key of a user. *)
Definition plain_project : Project :=
  mkProject
    (fun q => q)
    (fun q => q)
    [IsAuthenticated]
    (fun o db =>
       set_order_items
         (filter (fun i => negb (oi_order i =? order_id o)) (order_items db))
         (set_orders (filter (fun o' => negb (order_id o' =? order_id o))
                             (orders db))
                     (next_order_id db) db))
    (fun m db =>
       set_carts
         (filter (fun c => negb (cart_menuitem c =? mi_id m)) (carts db))
         (set_menuitems (filter (fun m' => negb (mi_id m' =? mi_id m))
                                (menuitems db))
                        (next_menuitem_id db) db))
    (fun _ body db =>
       match patch_delivery_crew body with
       | Some (Some k) =>
           if qs_exists (filter (fun u => user_id u =? k) (users db))
           then None
           else Some (ErrDict "delivery_crew" ["does_not_exist"])
       | _ => None
       end).

(** A manager who is also a customer, a customer, a delivery-crew member
    and a user in no group; one order with no delivery crew, one with. *)
Definition roles_example_db : DB :=
  mkDB [mkUser 1 "mia" "mia@example.com"; mkUser 2 "cal" "cal@example.com";
        mkUser 3 "dan" "dan@example.com"; mkUser 4 "nat" "nat@example.com"]
       [mkGroup "manager" [1]; mkGroup "customer" [1; 2];
        mkGroup "delivery_crew" [3]]
       [mkMenuItem 1 "Pizza" 1000 1 false]
       []
       [mkOrder 1 2 None 0 2000 0; mkOrder 2 2 (Some 3) 0 1000 0]
       [mkOrderItem 1 1 2 1000 2000; mkOrderItem 2 1 1 1000 1000]
       3 2.

(** A database with the users of [roles_example_db] and no delivery-crew
    group yet. *)
Definition roster_example_db : DB :=
  set_groups [mkGroup "manager" [1]; mkGroup "customer" [1; 2]]
             roles_example_db.

(** The cart rows, the order items and the next order key. *)
Definition rows_of (db : DB) : list Cart * list OrderItem * Z :=
  (carts db, order_items db, next_order_id db).

(** A computation that leaves the cart rows, the order items and the order
    key sequence alone. *)
Definition keeps_rows {A} (m : M A) : Prop :=
  forall db, rows_of (snd (m db)) = rows_of db.

(** A shop before any cart row or order item: a manager, a customer, and a
    pizza at 10.00. *)
Definition fresh_example_db : DB :=
  mkDB [mkUser 1 "mia" "mia@example.com"; mkUser 2 "cal" "cal@example.com"]
       [mkGroup "manager" [1]; mkGroup "customer" [2]]
       [mkMenuItem 1 "Pizza" 1000 1 false]
       [] [] [] 1 2.

(** The customer puts two pizzas in the cart, then the manager raises the
    price to 12.00. *)
Definition price_edit_trace : list Event :=
  [CartRequest POST (mkUser 2 "cal" "cal@example.com")
               (CartSerializer.mkData 1 2);
   SingleMenuItemRequest PATCH (mkUser 1 "mia" "mia@example.com") 1
                         (mkMenuItemData "Pizza" 1200 1 false)].

(** [cal] asks for an order, with an empty body. *)
Definition cal_orders : Event :=
  OrdersRequest POST (mkUser 2 "cal" "cal@example.com") (mkOrderPatch None None).

(** The database after the requests of a trace, first to last. *)
Definition run_trace (cfg : Project) (dflt : OrderDefaults) (evs : list Event)
           (db : DB) : DB :=
  fold_left (fun db ev => step cfg dflt ev db) evs db.

(** *** Keys and roles *)

(** [user.groups.filter(name=...).exists()] *)
Definition is_member (name : string) (u : User) (db : DB) : bool :=
  qs_exists (user_groups_filter name u db).

(** A cart with rows of two users. *)
Definition two_carts_example_db : DB :=
  mkDB [mkUser 7 "ann" "ann@example.com"; mkUser 8 "bob" "bob@example.com"]
       [mkGroup "customer" [7; 8]]
       [mkMenuItem 1 "Pizza" 1000 1 false; mkMenuItem 2 "Coke" 199 1 false]
       [mkCart 7 1 2 1000 2000; mkCart 8 2 1 199 199; mkCart 7 2 3 199 597]
       [] [] 1 3.

(** The database of [roles_example_db] with [nat], who has no order, in the
    customer group. *)
Definition other_customer_example_db : DB :=
  set_groups [mkGroup "manager" [1]; mkGroup "customer" [1; 2; 4];
              mkGroup "delivery_crew" [3]]
             roles_example_db.

(** *** Lists and querysets *)

Lemma qs_exists_false {A} (l : list A) : qs_exists l = false <-> l = [].
Proof. destruct l; simpl; split; congruence. Qed.

Lemma qs_exists_true {A} (l : list A) :
  qs_exists l = true <-> exists x, In x l.
Proof.
  destruct l as [|x l]; simpl; split; try congruence.
  - intros [_ []].
  - intros _. exists x. now left.
Qed.

Lemma filter_nil_iff {A} (p : A -> bool) (l : list A) :
  filter p l = [] <-> forall x, In x l -> p x = false.
Proof.
  induction l as [|a l IH]; simpl.
  - split; [intros _ x [] | reflexivity].
  - destruct (p a) eqn:E; split.
    + discriminate.
    + intros H. specialize (H a (or_introl eq_refl)). congruence.
    + intros H x [<- | Hx]; [assumption | now apply IH].
    + intros H. apply IH. intros x Hx. apply H. now right.
Qed.

Lemma fold_left_snoc_map {A B} (f : A -> B) (l : list A) (acc : list B) :
  fold_left (fun acc x => acc ++ [f x]) l acc = acc ++ map f l.
Proof.
  revert acc. induction l as [|a l IH]; intros acc; simpl.
  - now rewrite app_nil_r.
  - rewrite IH, <- app_assoc. reflexivity.
Qed.

Lemma fold_left_add_acc (l : list Z) (a : Z) :
  fold_left Z.add l a = a + fold_left Z.add l 0.
Proof.
  revert a. induction l as [|x l IH]; intros a; simpl.
  - lia.
  - rewrite (IH (a + x)), (IH x). lia.
Qed.

Lemma sum_cons (x : Z) (l : list Z) : sum (x :: l) = x + sum l.
Proof. unfold sum. simpl. apply fold_left_add_acc. Qed.

Lemma filter_filter_negb {A} (p : A -> bool) (l : list A) :
  filter p (filter (fun x => negb (p x)) l) = [].
Proof.
  apply filter_nil_iff. intros x Hx. apply filter_In in Hx.
  destruct Hx as [_ Hx]. now destruct (p x).
Qed.

Lemma filter_idem {A} (p : A -> bool) (l : list A) :
  filter p (filter p l) = filter p l.
Proof.
  induction l as [|a l IH]; simpl; [reflexivity|].
  destruct (p a) eqn:E; simpl; rewrite ?E, IH; reflexivity.
Qed.

Lemma check_permissions_allowed (p : Permission) (u : User) (db : DB) :
  has_permission p u db = true -> check_permissions [p] u db = (inr tt, db).
Proof. intros H. simpl. now rewrite H. Qed.

Lemma check_permissions_denied (p : Permission) (u : User) (db : DB) :
  has_permission p u db = false ->
  check_permissions [p] u db = (inl (PermissionDenied (message p)), db).
Proof. intros H. simpl. now rewrite H. Qed.

(** *** Order creation *)

Lemma exception_handler_status (e : Exn) :
  400 <= status_code (exception_handler e).
Proof. destruct e; cbv; discriminate. Qed.

(** [POST] on the orders view, step by step: the permission, the body, the
    creation. *)
Lemma orders_post_run (cfg : Project) (dflt : OrderDefaults) (user : User)
      (body : OrderPatch) (db : DB) :
  dispatch (OrdersView.view cfg dflt POST user body) db
  = if has_permission IsCustomer user db
    then match Order_field_errors cfg false body db with
         | Some detail => (mkResponse HTTP_400_BAD_REQUEST (Errors detail), db)
         | None =>
             match OrderSerializer.create dflt user db with
             | (inl e, db') => (exception_handler e, db')
             | (inr order, db') =>
                 (mkResponse HTTP_201_CREATED (OrderBody order), db')
             end
         end
    else (mkResponse HTTP_403_FORBIDDEN (Dict "detail" (message IsCustomer)),
          db).
Proof.
  unfold dispatch, OrdersView.view, OrdersView.post, bind.
  change (OrdersView.get_permissions POST) with [IsCustomer].
  destruct (has_permission IsCustomer user db) eqn:Hperm.
  - rewrite (check_permissions_allowed _ _ _ Hperm).
    unfold OrderSerializer.run_validation.
    destruct (Order_field_errors cfg false body db); [reflexivity|].
    unfold ret at 1.
    destruct (OrderSerializer.create dflt user db) as [[e|order] db'];
      reflexivity.
  - rewrite (check_permissions_denied _ _ _ Hperm). reflexivity.
Qed.

(** C1. When the user has at least one cart row, [OrderSerializer.create]
    returns an order whose total is the sum of the prices of the user's cart
    rows; the order is added to the orders; one order item per cart row of
    the user is added, in the order of the rows, with the row's menuitem,
    quantity, unit price and price; no cart row of the user is left, and the
    cart rows of the other users stay.  For a customer whose body the order
    fields accept, [POST] on the orders view does just that and answers 201
    with the order; and whoever asks and whatever the body, a [POST] that is
    answered 201 has done just that. *)
Theorem order_create_from_cart (dflt : OrderDefaults) (user : User) (db : DB) :
  (exists c, In c (carts db) /\ cart_user c = user_id user) ->
  let mine := filter (fun c => cart_user c =? user_id user) (carts db) in
  exists order db',
    OrderSerializer.create dflt user db = (inr order, db') /\
    order_user order = user_id user /\
    order_total order = sum (map cart_price mine) /\
    orders db' = orders db ++ [order] /\
    order_items db' = order_items db ++ map (order_item_of order) mine /\
    List.length (map (order_item_of order) mine) = List.length mine /\
    filter (fun c => cart_user c =? user_id user) (carts db') = [] /\
    filter (fun c => negb (cart_user c =? user_id user)) (carts db')
    = filter (fun c => negb (cart_user c =? user_id user)) (carts db) /\
    (forall cfg body,
        has_permission IsCustomer user db = true ->
        Order_field_errors cfg false body db = None ->
        dispatch (OrdersView.view cfg dflt POST user body) db
        = (mkResponse HTTP_201_CREATED (OrderBody order), db')) /\
    (forall cfg body r db'',
        dispatch (OrdersView.view cfg dflt POST user body) db = (r, db'') ->
        status_code r = HTTP_201_CREATED ->
        r = mkResponse HTTP_201_CREATED (OrderBody order) /\ db'' = db').
Proof.
  intros [c [Hin Hc]] mine.
  assert (Hex : qs_exists mine = true).
  { apply qs_exists_true. exists c. apply filter_In. split; [assumption|].
    now apply Z.eqb_eq. }
  assert (Hrun : exists order db',
             OrderSerializer.create dflt user db = (inr order, db') /\
             order = mkOrder (next_order_id db) (user_id user)
                             (default_delivery_crew dflt) (default_status dflt)
                             (sum (map cart_price mine)) (default_date dflt) /\
             orders db' = orders db ++ [order] /\
             order_items db'
             = order_items db ++ map (order_item_of order) mine /\
             carts db'
             = filter (fun c => negb (cart_user c =? user_id user)) (carts db)).
  { unfold OrderSerializer.create. fold mine. rewrite Hex. simpl negb. cbv iota.
    eexists. eexists. split; [reflexivity|].
    cbn [orders order_items carts set_orders set_order_items set_carts].
    rewrite fold_left_snoc_map. repeat split. }
  destruct Hrun as (order & db' & Hrun & Horder & Ho & Hi & Hcarts).
  exists order, db'. split; [exact Hrun|].
  split; [now rewrite Horder|].
  split; [now rewrite Horder|].
  split; [exact Ho|].
  split; [exact Hi|].
  split; [now rewrite length_map|].
  split; [rewrite Hcarts;
          apply (filter_filter_negb (fun c => cart_user c =? user_id user))|].
  split; [rewrite Hcarts; apply filter_idem|].
  split.
  - intros cfg body Hperm Hbody.
    rewrite orders_post_run, Hperm, Hbody, Hrun. reflexivity.
  - intros cfg body r db'' Hpost Hstatus.
    rewrite orders_post_run, Hrun in Hpost.
    destruct (has_permission IsCustomer user db);
      [destruct (Order_field_errors cfg false body db)|];
      inversion Hpost; subst r db''; try discriminate Hstatus.
    split; reflexivity.
Qed.

Lemma order_create_from_cart_witness :
  exists order db',
    OrderSerializer.create (mkOrderDefaults None 0 0)
      (mkUser 7 "ann" "ann@example.com") order_create_example_db
    = (inr order, db') /\
    order_total order = 2597 /\
    List.length (order_items db') = 2%nat /\
    carts db' = [] /\
    dispatch (OrdersView.view plain_project (mkOrderDefaults None 0 0) POST
                (mkUser 7 "ann" "ann@example.com") (mkOrderPatch None None))
             order_create_example_db
    = (mkResponse HTTP_201_CREATED (OrderBody order), db').
Proof.
  destruct (order_create_from_cart (mkOrderDefaults None 0 0)
              (mkUser 7 "ann" "ann@example.com") order_create_example_db)
    as (order & db' & Hrun & _ & Htot & _ & Hitems & _ & Hmine & Hothers
        & Hpost & _).
  { exists (mkCart 7 1 2 1000 2000). split; [now left | reflexivity]. }
  exists order, db'. split; [exact Hrun|].
  split; [rewrite Htot; reflexivity|].
  split; [rewrite Hitems; reflexivity|].
  split; [simpl in Hrun; inversion Hrun; reflexivity|].
  apply Hpost; reflexivity.
Defined.

(** C6. When the user has no cart row, [OrderSerializer.create] raises the
    validation error "Cart is empty" and the database is as it was, so that
    no order and no order item is written.  [POST] on the orders view then
    writes nothing and answers with an error status, whoever asks and
    whatever the body; for a customer whose body the order fields accept,
    the answer is 400 with that message. *)
Theorem order_create_empty_cart (dflt : OrderDefaults) (user : User) (db : DB) :
  (forall c, In c (carts db) -> cart_user c <> user_id user) ->
  OrderSerializer.create dflt user db
  = (inl (ValidationError (ErrList ["Cart is empty"])), db) /\
  (forall cfg body,
      exists r,
        dispatch (OrdersView.view cfg dflt POST user body) db = (r, db) /\
        400 <= status_code r) /\
  (forall cfg body,
      has_permission IsCustomer user db = true ->
      Order_field_errors cfg false body db = None ->
      dispatch (OrdersView.view cfg dflt POST user body) db
      = (mkResponse HTTP_400_BAD_REQUEST (Errors (ErrList ["Cart is empty"])),
         db)).
Proof.
  intros Hnone.
  assert (Hnil : filter (fun c => cart_user c =? user_id user) (carts db) = []).
  { apply filter_nil_iff. intros c Hc. apply Z.eqb_neq. now apply Hnone. }
  assert (Hcreate : OrderSerializer.create dflt user db
                    = (inl (ValidationError (ErrList ["Cart is empty"])), db)).
  { unfold OrderSerializer.create. rewrite Hnil. reflexivity. }
  split; [exact Hcreate|]. split.
  - intros cfg body. rewrite orders_post_run, Hcreate.
    destruct (has_permission IsCustomer user db);
      [destruct (Order_field_errors cfg false body db)|];
      eexists; (split; [reflexivity | cbv; discriminate]).
  - intros cfg body Hperm Hbody.
    rewrite orders_post_run, Hperm, Hbody, Hcreate. reflexivity.
Qed.

Lemma order_create_empty_cart_witness :
  OrderSerializer.create (mkOrderDefaults None 0 0)
    (mkUser 2 "cal" "cal@example.com") roles_example_db
  = (inl (ValidationError (ErrList ["Cart is empty"])), roles_example_db) /\
  dispatch (OrdersView.view plain_project (mkOrderDefaults None 0 0) POST
              (mkUser 2 "cal" "cal@example.com") (mkOrderPatch None None))
           roles_example_db
  = (mkResponse HTTP_400_BAD_REQUEST (Errors (ErrList ["Cart is empty"])),
     roles_example_db).
Proof.
  destruct (order_create_empty_cart (mkOrderDefaults None 0 0)
              (mkUser 2 "cal" "cal@example.com") roles_example_db)
    as (Hcreate & _ & Hpost).
  { intros c []. }
  split; [exact Hcreate|].
  apply Hpost; reflexivity.
Defined.

(** *** Adding to the cart *)

Lemma to_internal_value_found (u : User) (d : CartSerializer.Data) (db : DB)
      (m : MenuItem) :
  filter (fun m => mi_id m =? CartSerializer.data_menuitem d) (menuitems db) = [m] ->
  CartSerializer.to_internal_value u d db
  = (inr (CartSerializer.mkAttrs u m (CartSerializer.data_quantity d)), db)
  /\ mi_id m = CartSerializer.data_menuitem d.
Proof.
  intros Hm. unfold CartSerializer.to_internal_value. rewrite Hm. simpl.
  split; [reflexivity|].
  assert (Hin : In m (filter (fun m => mi_id m =? CartSerializer.data_menuitem d)
                             (menuitems db))) by (rewrite Hm; now left).
  apply filter_In in Hin. now apply Z.eqb_eq.
Qed.

(** Whatever [run_validation] does, it writes nothing. *)
Lemma run_validation_reads (u : User) (d : CartSerializer.Data) (db : DB) :
  snd (CartSerializer.run_validation u d db) = db.
Proof.
  unfold CartSerializer.run_validation, bind,
    CartSerializer.to_internal_value.
  destruct (objects_get _ _) as [[]|m]; simpl; try reflexivity.
  unfold CartSerializer.run_validators.
  destruct (qs_exists _); simpl; [reflexivity|].
  unfold CartSerializer.validate. simpl.
  destruct (_ <=? 0); reflexivity.
Qed.

(** C7. When the menu item of the request is a row of the database and the
    user already has a cart row for it, saving the serializer raises the
    validation error "Item is already in the cart." and the database is as it
    was: the row that is there is neither changed nor merged with the
    request, whatever the quantity asked for.  For a customer, [POST] on the
    cart view answers 400 with that message. *)
Theorem cart_add_duplicate (u : User) (d : CartSerializer.Data) (db : DB)
        (m : MenuItem) :
  filter (fun m => mi_id m =? CartSerializer.data_menuitem d) (menuitems db) = [m] ->
  (exists c, In c (carts db) /\
             cart_user c = user_id u /\
             cart_menuitem c = CartSerializer.data_menuitem d) ->
  CartSerializer.save u d db
  = (inl (ValidationError
            (ErrDict "non_field_errors" ["Item is already in the cart."])), db)
  /\
  (has_permission IsCustomer u db = true ->
   dispatch (CartView.view POST u d) db
   = (mkResponse HTTP_400_BAD_REQUEST
        (Errors (ErrDict "non_field_errors" ["Item is already in the cart."])),
      db)).
Proof.
  intros Hm [c [Hin [Hu Hc]]].
  destruct (to_internal_value_found u d db m Hm) as [Hv Hid].
  assert (Hsave : CartSerializer.save u d db
                  = (inl (ValidationError
                            (ErrDict "non_field_errors"
                                     ["Item is already in the cart."])), db)).
  { unfold CartSerializer.save, CartSerializer.run_validation, bind.
    rewrite Hv. unfold CartSerializer.run_validators. simpl.
    assert (Hex : qs_exists
                    (filter (fun c => (cart_user c =? user_id u)
                                      && (cart_menuitem c =? mi_id m))
                            (carts db)) = true).
    { apply qs_exists_true. exists c. apply filter_In. split; [assumption|].
      rewrite Hu, Hc, Hid, !Z.eqb_refl. reflexivity. }
    rewrite Hex. reflexivity. }
  split; [exact Hsave|].
  intros Hperm.
  unfold dispatch, CartView.view, CartView.post, bind.
  change (CartView.get_permissions POST) with [IsCustomer].
  rewrite (check_permissions_allowed _ _ _ Hperm), Hsave. reflexivity.
Qed.

Lemma cart_add_duplicate_witness :
  CartSerializer.save (mkUser 7 "ann" "ann@example.com")
    (CartSerializer.mkData 1 5) order_create_example_db
  = (inl (ValidationError
            (ErrDict "non_field_errors" ["Item is already in the cart."])),
     order_create_example_db).
Proof.
  apply (cart_add_duplicate (mkUser 7 "ann" "ann@example.com")
           (CartSerializer.mkData 1 5) order_create_example_db
           (mkMenuItem 1 "Pizza" 1000 1 false)).
  - reflexivity.
  - exists (mkCart 7 1 2 1000 2000). simpl. repeat split. now left.
Defined.

(** C10. When the quantity of the request is zero or less, saving the
    serializer raises and the database is as it was, so that no cart row is
    written, and [POST] on the cart view is answered with an error status and
    the database as it was; when the menu item is a row of the database and
    the user has no cart row for it, what is raised is the validation error
    of [validate]. *)
Theorem cart_add_non_positive (u : User) (d : CartSerializer.Data) (db : DB) :
  CartSerializer.data_quantity d <= 0 ->
  (exists e, CartSerializer.save u d db = (inl e, db)) /\
  (exists r, dispatch (CartView.view POST u d) db = (r, db) /\
             400 <= status_code r) /\
  (forall m,
      filter (fun m => mi_id m =? CartSerializer.data_menuitem d) (menuitems db)
      = [m] ->
      (forall c, In c (carts db) ->
                 cart_user c = user_id u ->
                 cart_menuitem c <> CartSerializer.data_menuitem d) ->
      CartSerializer.save u d db
      = (inl (ValidationError
                (ErrDict "non_field_errors"
                         ["Quantity cannot be 0 or less than 0."])), db)).
Proof.
  intros Hq.
  assert (Hle : (CartSerializer.data_quantity d <=? 0) = true)
    by now apply Z.leb_le.
  assert (Hsave : exists e, CartSerializer.save u d db = (inl e, db)).
  { unfold CartSerializer.save, CartSerializer.run_validation, bind,
      CartSerializer.to_internal_value.
    destruct (objects_get _ _) as [[]|m]; simpl; eauto.
    unfold CartSerializer.run_validators.
    destruct (qs_exists _); simpl; eauto.
    unfold CartSerializer.validate. simpl. rewrite Hle. simpl. eauto. }
  split; [exact Hsave|]. split.
  - destruct Hsave as [e He].
    unfold dispatch, CartView.view, CartView.post, bind.
    change (CartView.get_permissions POST) with [IsCustomer].
    destruct (has_permission IsCustomer u db) eqn:Hperm.
    + rewrite (check_permissions_allowed _ _ _ Hperm), He.
      eexists. split; [reflexivity | apply exception_handler_status].
    + rewrite (check_permissions_denied _ _ _ Hperm).
      eexists. split; [reflexivity | apply exception_handler_status].
  - intros m Hm Hnone.
    destruct (to_internal_value_found u d db m Hm) as [Hv Hid].
    unfold CartSerializer.save, CartSerializer.run_validation, bind.
    rewrite Hv. unfold CartSerializer.run_validators. simpl.
    assert (Hex : filter (fun c => (cart_user c =? user_id u)
                                   && (cart_menuitem c =? mi_id m))
                         (carts db) = []).
    { apply filter_nil_iff. intros c Hc.
      destruct (cart_user c =? user_id u) eqn:Eu; [|reflexivity].
      simpl. apply Z.eqb_neq. rewrite Hid. apply Hnone; [assumption|].
      now apply Z.eqb_eq. }
    rewrite Hex. simpl. unfold CartSerializer.validate. simpl.
    rewrite Hle. reflexivity.
Qed.

Lemma cart_add_non_positive_witness :
  CartSerializer.save (mkUser 8 "bob" "bob@example.com")
    (CartSerializer.mkData 2 0) order_create_example_db
  = (inl (ValidationError
            (ErrDict "non_field_errors"
                     ["Quantity cannot be 0 or less than 0."])),
     order_create_example_db).
Proof.
  apply (proj2 (proj2 (cart_add_non_positive
                         (mkUser 8 "bob" "bob@example.com")
                         (CartSerializer.mkData 2 0) order_create_example_db
                         ltac:(simpl; lia)))
               (mkMenuItem 2 "Coke" 199 1 false)).
  - reflexivity.
  - intros c [<- | [<- | []]]; simpl; discriminate.
Defined.

(** *** Orders by role *)

Lemma plain_project_filters_reorder : filters_reorder plain_project.
Proof. intros q. apply Permutation_refl. Qed.

Lemma orders_list_response (cfg : Project) (dflt : OrderDefaults) (user : User)
      (body : OrderPatch) (db : DB) :
  dispatch (OrdersView.view cfg dflt GET user body) db
  = (mkResponse HTTP_200_OK
       (OrderListBody
          (map (with_order_items db)
               (filter_queryset cfg (OrdersView.get_queryset user db)))),
     db).
Proof. reflexivity. Qed.

Lemma map_od_order_with_items (db : DB) (q : list Order) :
  map od_order (map (with_order_items db) q) = q.
Proof.
  induction q as [|o q IH]; simpl; [reflexivity | now rewrite IH].
Qed.

(** C3, as amended. For a caller in the customer group who is not in the
    manager group, the order list is answered with status 200 and the orders
    in it are, up to their order, the orders whose user is the caller; so
    every order in the list has the caller as its user. *)
Theorem orders_list_customer (cfg : Project) (dflt : OrderDefaults)
        (user : User) (body : OrderPatch) (db : DB) :
  filters_reorder cfg ->
  has_permission IsCustomer user db = true ->
  has_permission IsManager user db = false ->
  exists l,
    dispatch (OrdersView.view cfg dflt GET user body) db
    = (mkResponse HTTP_200_OK (OrderListBody l), db) /\
    Permutation (map od_order l)
                (filter (fun o => order_user o =? user_id user) (orders db)) /\
    (forall od, In od l -> order_user (od_order od) = user_id user).
Proof.
  intros Hf Hc Hm. simpl in Hc, Hm.
  eexists. split; [apply orders_list_response|].
  assert (Hq : OrdersView.get_queryset user db
               = filter (fun o => order_user o =? user_id user) (orders db)).
  { unfold OrdersView.get_queryset. now rewrite Hm, Hc. }
  rewrite Hq, map_od_order_with_items.
  split; [apply Hf|].
  intros od Hod. apply in_map_iff in Hod. destruct Hod as [o [<- Ho]].
  simpl. apply (Permutation_in _ (Hf _)) in Ho.
  apply filter_In in Ho. now apply Z.eqb_eq.
Qed.

Lemma orders_list_customer_witness :
  exists l,
    dispatch (OrdersView.view plain_project (mkOrderDefaults None 0 0) GET
                (mkUser 2 "cal" "cal@example.com") (mkOrderPatch None None))
             roles_example_db
    = (mkResponse HTTP_200_OK (OrderListBody l), roles_example_db) /\
    (forall od, In od l -> order_user (od_order od) = 2).
Proof.
  destruct (orders_list_customer plain_project (mkOrderDefaults None 0 0)
              (mkUser 2 "cal" "cal@example.com") (mkOrderPatch None None)
              roles_example_db
              plain_project_filters_reorder eq_refl eq_refl)
    as (l & Hrun & _ & Hown).
  exists l. split; [exact Hrun | exact Hown].
Defined.

(** C3 as the claim has it fails: a caller in the customer group who is also
    in the manager group is listed the orders of another user. *)
Lemma orders_list_customer_counterexample :
  let mia := mkUser 1 "mia" "mia@example.com" in
  has_permission IsCustomer mia roles_example_db = true /\
  exists o,
    In o (listed_orders
            (fst (dispatch (OrdersView.view plain_project
                              (mkOrderDefaults None 0 0) GET mia
                              (mkOrderPatch None None))
                           roles_example_db))) /\
    order_user o <> user_id mia.
Proof.
  split; [reflexivity|].
  exists (mkOrder 1 2 None 0 2000 0). split; [now left | discriminate].
Qed.

(** C4. For a caller in none of the three groups, the order list is answered
    with status 200, the queryset is the one of the class, that is every
    order, and the orders in the list are, up to their order, all the orders
    of the database. *)
Theorem orders_list_no_group (cfg : Project) (dflt : OrderDefaults)
        (user : User) (body : OrderPatch) (db : DB) :
  filters_reorder cfg ->
  has_permission IsManager user db = false ->
  has_permission IsCustomer user db = false ->
  has_permission IsDeliveryCrew user db = false ->
  OrdersView.get_queryset user db = orders db /\
  exists l,
    dispatch (OrdersView.view cfg dflt GET user body) db
    = (mkResponse HTTP_200_OK (OrderListBody l), db) /\
    Permutation (map od_order l) (orders db) /\
    (forall o, In o (orders db) -> In o (map od_order l)).
Proof.
  intros Hf Hm Hc Hd. simpl in Hm, Hc, Hd.
  assert (Hq : OrdersView.get_queryset user db = orders db).
  { unfold OrdersView.get_queryset. now rewrite Hm, Hc, Hd. }
  split; [exact Hq|].
  eexists. split; [apply orders_list_response|].
  rewrite Hq, map_od_order_with_items.
  split; [apply Hf|].
  intros o Ho. apply (Permutation_in _ (Permutation_sym (Hf _))). exact Ho.
Qed.

Lemma orders_list_no_group_witness :
  exists l,
    dispatch (OrdersView.view plain_project (mkOrderDefaults None 0 0) GET
                (mkUser 4 "nat" "nat@example.com") (mkOrderPatch None None))
             roles_example_db
    = (mkResponse HTTP_200_OK (OrderListBody l), roles_example_db) /\
    Permutation (map od_order l) (orders roles_example_db).
Proof.
  destruct (orders_list_no_group plain_project (mkOrderDefaults None 0 0)
              (mkUser 4 "nat" "nat@example.com") (mkOrderPatch None None)
              roles_example_db
              plain_project_filters_reorder eq_refl eq_refl eq_refl)
    as (_ & l & Hrun & Hperm & _).
  exists l. split; [exact Hrun | exact Hperm].
Defined.

(** C9. For a caller who is not in the manager group, [DELETE] on a single
    order is answered 403 with the message of [IsManager], and the database
    is as it was, whoever the user of the order is. *)
Theorem single_order_delete_non_manager (cfg : Project) (user : User) (pk : Z)
        (p : OrderPatch) (db : DB) :
  has_permission IsManager user db = false ->
  dispatch (SingleOrderView.view cfg DELETE user pk p) db
  = (mkResponse HTTP_403_FORBIDDEN (Dict "detail" (message IsManager)), db).
Proof.
  intros Hm.
  unfold dispatch, SingleOrderView.view, bind.
  change (SingleOrderView.get_permissions cfg DELETE) with [IsManager].
  rewrite (check_permissions_denied _ _ _ Hm). reflexivity.
Qed.

Lemma single_order_delete_non_manager_witness :
  In (mkOrder 1 2 None 0 2000 0) (orders roles_example_db) /\
  dispatch (SingleOrderView.view plain_project DELETE
              (mkUser 2 "cal" "cal@example.com") 1 (mkOrderPatch None None))
           roles_example_db
  = (mkResponse HTTP_403_FORBIDDEN
       (Dict "detail" "You don't have right permission to perfom this action."),
     roles_example_db).
Proof.
  split; [now left|].
  apply (single_order_delete_non_manager plain_project
           (mkUser 2 "cal" "cal@example.com") 1 (mkOrderPatch None None)
           roles_example_db).
  reflexivity.
Defined.

(** *** Single orders *)

Lemma filter_id_miss (cfg : Project) (q : list Order) (pk : Z) :
  filters_reorder cfg ->
  (forall o, In o q -> order_id o <> pk) ->
  filter (fun o => order_id o =? pk) (filter_queryset cfg q) = [].
Proof.
  intros Hf Hmiss. apply filter_nil_iff. intros o Ho.
  apply Z.eqb_neq, Hmiss. exact (Permutation_in _ (Hf q) Ho).
Qed.

(** C2, as amended. For a caller who is a manager or a customer, or who is
    not in the delivery-crew group, the queryset of single-order retrieval is
    the queryset of the order list: every order for a manager, the caller's
    own orders for a customer who is not a manager.  For a delivery-crew
    member who is neither, retrieval selects from every order, while the
    list selects from the orders with a delivery crew assigned.  For a
    caller in at least one of the three groups, when no order of the
    retrieval queryset has the requested id, [GET] on the single-order view
    is answered 404 with the message "Order not found" and the database is
    as it was; a caller in none of the groups is answered 403, whatever the
    id. *)
Theorem single_order_queryset (cfg : Project) (user : User) (db : DB) :
  filters_reorder cfg ->
  (has_permission IsManager user db = true \/
   has_permission IsCustomer user db = true \/
   has_permission IsDeliveryCrew user db = false ->
   SingleOrderView.get_queryset user db = OrdersView.get_queryset user db) /\
  (has_permission IsManager user db = true ->
   SingleOrderView.get_queryset user db = orders db) /\
  (has_permission IsManager user db = false ->
   has_permission IsCustomer user db = true ->
   SingleOrderView.get_queryset user db
   = filter (fun o => order_user o =? user_id user) (orders db)) /\
  (has_permission IsManager user db = false ->
   has_permission IsCustomer user db = false ->
   has_permission IsDeliveryCrew user db = true ->
   SingleOrderView.get_queryset user db = orders db /\
   OrdersView.get_queryset user db
   = filter (fun o => match order_delivery_crew o with
                      | Some _ => true
                      | None => false
                      end) (orders db)) /\
  (has_permission IsManager user db = true \/
   has_permission IsCustomer user db = true \/
   has_permission IsDeliveryCrew user db = true ->
   forall pk p,
     (forall o, In o (SingleOrderView.get_queryset user db) ->
                order_id o <> pk) ->
     dispatch (SingleOrderView.view cfg GET user pk p) db
     = (mkResponse HTTP_404_NOT_FOUND (Dict "message" "Order not found"), db))
  /\
  (has_permission IsManager user db = false ->
   has_permission IsCustomer user db = false ->
   has_permission IsDeliveryCrew user db = false ->
   forall pk p,
     dispatch (SingleOrderView.view cfg GET user pk p) db
     = (mkResponse HTTP_403_FORBIDDEN
          (Dict "detail" (message (OR (OR IsCustomer IsManager) IsDeliveryCrew))),
        db)).
Proof.
  intros Hf.
  split; [|split; [|split; [|split; [|split]]]].
  - simpl has_permission.
    unfold SingleOrderView.get_queryset, OrdersView.get_queryset.
    intros [H | [H | H]]; rewrite ?H;
      destruct (qs_exists (user_groups_filter "manager" user db));
      destruct (qs_exists (user_groups_filter "customer" user db));
      try reflexivity; try discriminate.
  - simpl has_permission.
    unfold SingleOrderView.get_queryset. intros ->. reflexivity.
  - simpl has_permission.
    unfold SingleOrderView.get_queryset. intros -> ->. reflexivity.
  - simpl has_permission.
    unfold SingleOrderView.get_queryset, OrdersView.get_queryset.
    intros -> -> ->. split; reflexivity.
  - intros Hany pk p Hmiss.
    unfold dispatch, SingleOrderView.view, bind.
    change (SingleOrderView.get_permissions cfg GET)
      with [OR (OR IsCustomer IsManager) IsDeliveryCrew].
    rewrite check_permissions_allowed.
    + unfold SingleOrderView.list.
      rewrite (filter_id_miss cfg _ pk Hf Hmiss). reflexivity.
    + change (has_permission (OR (OR IsCustomer IsManager) IsDeliveryCrew)
                             user db)
        with ((has_permission IsCustomer user db
               || has_permission IsManager user db)
              || has_permission IsDeliveryCrew user db).
      destruct Hany as [-> | [-> | ->]];
        now rewrite ?orb_true_r, ?orb_true_l.
  - intros Hm Hc Hd pk p.
    unfold dispatch, SingleOrderView.view, bind.
    change (SingleOrderView.get_permissions cfg GET)
      with [OR (OR IsCustomer IsManager) IsDeliveryCrew].
    rewrite check_permissions_denied; [reflexivity|].
    change (has_permission (OR (OR IsCustomer IsManager) IsDeliveryCrew)
                           user db)
      with ((has_permission IsCustomer user db
             || has_permission IsManager user db)
            || has_permission IsDeliveryCrew user db).
    now rewrite Hm, Hc, Hd.
Qed.

Lemma single_order_queryset_witness :
  SingleOrderView.get_queryset (mkUser 2 "cal" "cal@example.com") roles_example_db
  = OrdersView.get_queryset (mkUser 2 "cal" "cal@example.com") roles_example_db
  /\
  dispatch (SingleOrderView.view plain_project GET
              (mkUser 2 "cal" "cal@example.com") 9 (mkOrderPatch None None))
           roles_example_db
  = (mkResponse HTTP_404_NOT_FOUND (Dict "message" "Order not found"),
     roles_example_db) /\
  dispatch (SingleOrderView.view plain_project GET
              (mkUser 4 "nat" "nat@example.com") 9 (mkOrderPatch None None))
           roles_example_db
  = (mkResponse HTTP_403_FORBIDDEN
       (Dict "detail" "You do not have permission to perform this action."),
     roles_example_db).
Proof.
  destruct (single_order_queryset plain_project
              (mkUser 2 "cal" "cal@example.com") roles_example_db
              plain_project_filters_reorder)
    as (Hsame & _ & _ & _ & Hmiss & _).
  destruct (single_order_queryset plain_project
              (mkUser 4 "nat" "nat@example.com") roles_example_db
              plain_project_filters_reorder)
    as (_ & _ & _ & _ & _ & Hnone).
  split; [|split].
  - apply Hsame. right. left. reflexivity.
  - apply Hmiss.
    + right. left. reflexivity.
    + intros o [<- | [<- | []]]; simpl; discriminate.
  - apply Hnone; reflexivity.
Defined.

(** C2 as the claim has it fails: for a delivery-crew member the two
    querysets differ, and an order with no delivery crew assigned, which the
    list leaves out, is retrieved with status 200; and a caller in none of
    the groups who asks for an id that no order has is answered 403, not
    404. *)
Lemma single_order_queryset_counterexample :
  let dan := mkUser 3 "dan" "dan@example.com" in
  let nat := mkUser 4 "nat" "nat@example.com" in
  let unassigned := mkOrder 1 2 None 0 2000 0 in
  has_permission IsDeliveryCrew dan roles_example_db = true /\
  SingleOrderView.get_queryset dan roles_example_db
  <> OrdersView.get_queryset dan roles_example_db /\
  ~ In unassigned (OrdersView.get_queryset dan roles_example_db) /\
  dispatch (SingleOrderView.view plain_project GET dan 1 (mkOrderPatch None None))
           roles_example_db
  = (mkResponse HTTP_200_OK
       (OrderDataBody (mkOrderData unassigned [mkOrderItem 1 1 2 1000 2000])),
     roles_example_db) /\
  (forall o, In o (SingleOrderView.get_queryset nat roles_example_db) ->
             order_id o <> 9) /\
  status_code
    (fst (dispatch (SingleOrderView.view plain_project GET nat 9
                      (mkOrderPatch None None))
                   roles_example_db))
  = HTTP_403_FORBIDDEN.
Proof.
  split; [reflexivity|].
  split; [discriminate|].
  split; [intros [H | []]; discriminate|].
  split; [reflexivity|].
  split; [|reflexivity].
  intros o [<- | [<- | []]]; simpl; discriminate.
Qed.

(** *** Rosters *)

(** When the group is a row of the database, removal from a roster answers
    404 for an id that is no user's, 400 for a user who is not a member,
    and otherwise removes the membership and answers 200. *)
Lemma roster_delete_group_present (name : string) (pk : Z) (db : DB) (g : Group) :
  filter (fun g => (group_name g =? name)%string) (groups db) = [g] ->
  (filter (fun u => user_id u =? pk) (users db) = [] ->
   dispatch (GroupUsersView.delete name pk) db
   = (mkResponse HTTP_404_NOT_FOUND
        (Dict "error" ("User with id " ++ format_int pk ++ " does not exist")),
      db)) /\
  (forall u,
      filter (fun u => user_id u =? pk) (users db) = [u] ->
      existsb (Z.eqb (user_id u)) (user_set g) = false ->
      dispatch (GroupUsersView.delete name pk) db
      = (mkResponse HTTP_400_BAD_REQUEST
           (Dict "error" ("User " ++ username u ++ " is not a member of "
                          ++ name ++ " group")),
         db)) /\
  (forall u,
      filter (fun u => user_id u =? pk) (users db) = [u] ->
      existsb (Z.eqb (user_id u)) (user_set g) = true ->
      dispatch (GroupUsersView.delete name pk) db
      = (mkResponse HTTP_200_OK
           (Dict "success" ("User " ++ username u ++ " has been removed from "
                            ++ name ++ " group")),
         snd (GroupUsersView.user_set_remove g u db))).
Proof.
  intros Hg. unfold dispatch, GroupUsersView.delete, try_except.
  split; [|split].
  - intros ->. reflexivity.
  - intros u -> Hmem. simpl. rewrite Hg. simpl. rewrite Hmem. reflexivity.
  - intros u -> Hmem. simpl. rewrite Hg. simpl. rewrite Hmem. reflexivity.
Qed.

(** C8, where the code leaves the claim. The user of id 4 exists and is not a
    member of the delivery-crew group, and the group has no row:
    [Group.objects.get] raises [Group.DoesNotExist], which the handler does
    not catch, and the answer is a server error, not 400. *)
Theorem roster_delete_group_missing :
  filter (fun u => user_id u =? 4) (users roster_example_db)
  = [mkUser 4 "nat" "nat@example.com"] /\
  DeliveryCrewView.delete 4 roster_example_db
  = (inl (DoesNotExist "Group"), roster_example_db) /\
  dispatch (DeliveryCrewView.delete 4) roster_example_db
  = (mkResponse HTTP_500_INTERNAL_SERVER_ERROR NoBody, roster_example_db).
Proof. repeat split. Qed.

(** *** Reading and writing *)

Lemma objects_get_inr {A} (model : string) (l : list A) (r : A) :
  objects_get model l = inr r -> l = [r].
Proof.
  destruct l as [|a [|b l]]; simpl; intros H; inversion H; reflexivity.
Qed.

(** [check_permissions] writes nothing. *)
Lemma check_permissions_reads (ps : list Permission) (u : User) (db : DB) :
  snd (check_permissions ps u db) = db.
Proof.
  induction ps as [|p ps IH]; simpl; [reflexivity|].
  destruct (has_permission p u db); [exact IH | reflexivity].
Qed.

(** A view behind [check_permissions]: denied, the database stays; allowed,
    it is what the handler leaves. *)
Lemma behind_permissions {A} (ps : list Permission) (u : User) (h : M A)
      (db : DB) :
  snd ((check_permissions ps u ;;; h)%handler db) = db \/
  (check_permissions ps u ;;; h)%handler db = h db.
Proof.
  unfold bind. pose proof (check_permissions_reads ps u db) as Hr.
  destruct (check_permissions ps u db) as [[e|[]] db']; simpl in *; subst db'.
  - now left.
  - now right.
Qed.

Lemma snd_dispatch (h : M Response) (db : DB) :
  snd (dispatch h db) = snd (h db).
Proof. unfold dispatch. destruct (h db) as [[e|r] db']; reflexivity. Qed.

Lemma keeps_rows_ret {A} (a : A) : keeps_rows (ret a).
Proof. intros db. reflexivity. Qed.

Lemma keeps_rows_raise {A} (e : Exn) : keeps_rows (@raise A e).
Proof. intros db. reflexivity. Qed.

Lemma keeps_rows_get_db : keeps_rows get_db.
Proof. intros db. reflexivity. Qed.

Lemma keeps_rows_modify (f : DB -> DB) :
  (forall db, rows_of (f db) = rows_of db) -> keeps_rows (modify f).
Proof. intros H db. exact (H db). Qed.

Lemma keeps_rows_bind {A B} (m : M A) (k : A -> M B) :
  keeps_rows m -> (forall a, keeps_rows (k a)) -> keeps_rows (bind m k).
Proof.
  intros Hm Hk db. unfold bind. specialize (Hm db).
  destruct (m db) as [[e|a] db1]; simpl in *; [exact Hm|].
  rewrite (Hk a db1). exact Hm.
Qed.

Lemma keeps_rows_try_except {A} (m : M A) (h : Exn -> option (M A)) :
  keeps_rows m -> (forall e k, h e = Some k -> keeps_rows k) ->
  keeps_rows (try_except m h).
Proof.
  intros Hm Hh db. unfold try_except. specialize (Hm db).
  destruct (m db) as [[e|a] db1]; simpl in *; [|exact Hm].
  destruct (h e) as [k|] eqn:E; [|exact Hm].
  rewrite (Hh e k E db1). exact Hm.
Qed.

Lemma keeps_rows_check_permissions (ps : list Permission) (u : User) :
  keeps_rows (check_permissions ps u).
Proof. intros db. now rewrite check_permissions_reads. Qed.

Lemma keeps_rows_get_object_or_404 {A} (model : string) (rows : list A) :
  keeps_rows (get_object_or_404 model rows).
Proof.
  unfold get_object_or_404.
  destruct (objects_get model rows) as [[]|r];
    auto using keeps_rows_ret, keeps_rows_raise.
Qed.

Lemma keeps_rows_order_run_validation (cfg : Project) (partial : bool)
      (body : OrderPatch) :
  keeps_rows (OrderSerializer.run_validation cfg partial body).
Proof.
  intros db. unfold OrderSerializer.run_validation.
  destruct (Order_field_errors cfg partial body db); reflexivity.
Qed.

Create HintDb rows.
#[local] Hint Resolve keeps_rows_ret keeps_rows_raise keeps_rows_get_db
  keeps_rows_check_permissions keeps_rows_get_object_or_404
  keeps_rows_order_run_validation : rows.
#[local] Hint Extern 2 (keeps_rows (bind _ _)) =>
  apply keeps_rows_bind; [|intro] : rows.
#[local] Hint Extern 2 (keeps_rows (modify _)) =>
  apply keeps_rows_modify; intro; reflexivity : rows.

Lemma keeps_rows_roster_post (name username_ : string) :
  keeps_rows (GroupUsersView.post name username_).
Proof.
  intros db. unfold GroupUsersView.post.
  destruct (objects_get "User" _) as [[]|user]; try reflexivity.
  revert db. change (keeps_rows
    (group <- GroupUsersView.get_or_create name ;;
     GroupUsersView.user_set_add group user ;;;
     ret (mkResponse HTTP_201_CREATED
            (Dict "success"
               ("User " ++ username_ ++ " has been added to "
                ++ name ++ " group"))))%handler).
  apply keeps_rows_bind.
  - intros db. unfold GroupUsersView.get_or_create.
    destruct (objects_get "Group" _) as [[]|g]; reflexivity.
  - intros g. unfold GroupUsersView.user_set_add. auto with rows.
Qed.

Lemma keeps_rows_roster_delete (name : string) (pk : Z) :
  keeps_rows (GroupUsersView.delete name pk).
Proof.
  unfold GroupUsersView.delete. apply keeps_rows_try_except.
  - intros db.
    destruct (objects_get "User" _) as [e|user]; [reflexivity|].
    destruct (objects_get "Group" _) as [e|g]; [reflexivity|].
    destruct (existsb _ _); reflexivity.
  - intros e k Hk. destruct e; try discriminate.
    repeat match type of Hk with
           | context [match ?x with _ => _ end] => destruct x; try discriminate
           end.
    inversion Hk. auto with rows.
Qed.

Lemma keeps_rows_roster_view (cfg : Project) (name : string) (user : User)
      (req : RosterRequest) :
  keeps_rows (GroupUsersView.view cfg name user req).
Proof.
  unfold GroupUsersView.view. apply keeps_rows_bind; [auto with rows|].
  intros _. destruct req as [pk | username_ | pk].
  - unfold GroupUsersView.get. apply keeps_rows_bind; [|auto with rows].
    intros db. unfold GroupUsersView.get_queryset.
    destruct (objects_get "Group" _) as [e|g]; [reflexivity|].
    destruct pk; reflexivity.
  - apply keeps_rows_roster_post.
  - apply keeps_rows_roster_delete.
Qed.

Lemma keeps_rows_menu_items (method : Method) (user : User) (d : MenuItemData) :
  keeps_rows (MenuItemsView.view method user d).
Proof.
  unfold MenuItemsView.view. apply keeps_rows_bind; [auto with rows|].
  intros _. destruct method; auto with rows.
Qed.

Lemma keeps_rows_menu_item_update (pk : Z) (d : MenuItemData) :
  keeps_rows (SingleMenuItemView.update pk d).
Proof.
  unfold SingleMenuItemView.update, SingleMenuItemView.get_object.
  auto 10 with rows.
Qed.

Lemma keeps_rows_order_update (cfg : Project) (partial : bool) (user : User)
      (pk : Z) (p : OrderPatch) :
  keeps_rows (SingleOrderView.update cfg partial user pk p).
Proof.
  unfold SingleOrderView.update, SingleOrderView.get_object.
  auto 10 with rows.
Qed.

Lemma keeps_rows_order_list (cfg : Project) (user : User) (pk : Z) :
  keeps_rows (SingleOrderView.list cfg user pk).
Proof.
  intros db. unfold SingleOrderView.list.
  destruct (objects_get "Order" _) as [[]|o]; reflexivity.
Qed.

(** Saving a cart serializer either raises and writes nothing, or appends the
    row it returns: the user's, for the menu item of that key, at the menu
    item's price as it is now. *)
Lemma cart_save_cases (u : User) (d : CartSerializer.Data) (db : DB) :
  (exists e, CartSerializer.save u d db = (inl e, db)) \/
  (exists m,
      filter (fun m => mi_id m =? CartSerializer.data_menuitem d) (menuitems db)
      = [m] /\
      let c := mkCart (user_id u) (mi_id m) (CartSerializer.data_quantity d)
                      (mi_price m)
                      (mi_price m * CartSerializer.data_quantity d) in
      CartSerializer.save u d db = (inr c, set_carts (carts db ++ [c]) db)).
Proof.
  unfold CartSerializer.save, CartSerializer.run_validation, bind,
    CartSerializer.to_internal_value.
  destruct (objects_get "MenuItem" _) as [[]|m] eqn:Hget; simpl; eauto.
  apply objects_get_inr in Hget.
  unfold CartSerializer.run_validators.
  destruct (qs_exists _); simpl; eauto.
  unfold CartSerializer.validate. simpl.
  destruct (_ <=? 0); simpl; eauto.
Qed.

(** [OrderSerializer.create] either raises and writes nothing, or turns the
    cart rows of the user into the items of the order it returns. *)
Lemma order_create_cases (dflt : OrderDefaults) (user : User) (db : DB) :
  (exists e, OrderSerializer.create dflt user db = (inl e, db)) \/
  (exists order db',
      OrderSerializer.create dflt user db = (inr order, db') /\
      carts db' = filter (fun c => negb (cart_user c =? user_id user)) (carts db) /\
      order_items db'
      = order_items db
        ++ map (order_item_of order)
               (filter (fun c => cart_user c =? user_id user) (carts db))).
Proof.
  unfold OrderSerializer.create.
  destruct (qs_exists _); simpl negb; cbv iota;
    [right | left; eexists; reflexivity].
  eexists. eexists. split; [reflexivity|].
  cbn [carts order_items set_orders set_order_items set_carts].
  rewrite fold_left_snoc_map. split; reflexivity.
Qed.

(** ** Further properties of the views *)

(** *** The cart *)

Lemma has_permission_groups (p : Permission) (u : User) (db db' : DB) :
  groups db' = groups db -> has_permission p u db' = has_permission p u db.
Proof.
  intros H. induction p; simpl; unfold user_groups_filter; rewrite ?H;
    try reflexivity.
  now rewrite IHp1, IHp2.
Qed.

Lemma filter_other_user (u v : Z) (l : list Cart) :
  v <> u ->
  filter (fun c => cart_user c =? v)
         (filter (fun c => negb (cart_user c =? u)) l)
  = filter (fun c => cart_user c =? v) l.
Proof.
  intros Hvu. induction l as [|c l IH]; simpl; [reflexivity|].
  destruct (cart_user c =? u) eqn:Eu; simpl.
  - apply Z.eqb_eq in Eu.
    assert (Ev : (cart_user c =? v) = false) by (apply Z.eqb_neq; congruence).
    now rewrite Ev.
  - destruct (cart_user c =? v); now rewrite IH.
Qed.

(** Dropping cart rows keeps the keys of the rest distinct. *)
Lemma cart_keys_filter (keep : Cart -> bool) (rows : list Cart) :
  NoDup (map cart_key rows) -> NoDup (map cart_key (filter keep rows)).
Proof.
  intros Hnd. induction rows as [|c rows IH]; simpl; [constructor|].
  simpl in Hnd. apply NoDup_cons_iff in Hnd. destruct Hnd as [Hnotin Hnd].
  destruct (keep c); simpl; [|now apply IH].
  apply NoDup_cons_iff. split; [|now apply IH].
  intros Hin. apply Hnotin. apply in_map_iff in Hin.
  destruct Hin as [x [Hx Hin]]. apply filter_In in Hin.
  apply in_map_iff. exists x. tauto.
Qed.

(** The validators of the cart serializer refuse a key that is in the cart. *)
Lemma run_validators_duplicate (a : CartSerializer.Attrs) (db : DB) :
  (exists c, In c (carts db) /\
             cart_key c = (user_id (CartSerializer.attrs_user a),
                           mi_id (CartSerializer.attrs_menuitem a))) ->
  CartSerializer.run_validators a db
  = (inl (ValidationError
            (ErrDict "non_field_errors" ["Item is already in the cart."])), db).
Proof.
  intros [c [Hin Hkey]]. unfold CartSerializer.run_validators.
  assert (Hex : qs_exists
                  (filter (fun c => (cart_user c =? user_id (CartSerializer.attrs_user a))
                                    && (cart_menuitem c
                                        =? mi_id (CartSerializer.attrs_menuitem a)))
                          (carts db)) = true).
  { apply qs_exists_true. exists c. apply filter_In. split; [assumption|].
    unfold cart_key in Hkey. inversion Hkey as [[Hu Hm]].
    now rewrite !Z.eqb_refl. }
  rewrite Hex. reflexivity.
Qed.

(** What a save that returns has done: the menu item was found, no row had
    the key, the quantity is positive, and the row returned is appended. *)
Lemma cart_save_inr (u : User) (d : CartSerializer.Data) (db db' : DB)
      (c : Cart) :
  CartSerializer.save u d db = (inr c, db') ->
  exists m,
    filter (fun m => mi_id m =? CartSerializer.data_menuitem d) (menuitems db)
    = [m] /\
    mi_id m = CartSerializer.data_menuitem d /\
    (forall c0, In c0 (carts db) ->
                cart_key c0 <> (user_id u, CartSerializer.data_menuitem d)) /\
    0 < CartSerializer.data_quantity d /\
    c = mkCart (user_id u) (mi_id m) (CartSerializer.data_quantity d)
               (mi_price m) (mi_price m * CartSerializer.data_quantity d) /\
    db' = set_carts (carts db ++ [c]) db.
Proof.
  unfold CartSerializer.save, CartSerializer.run_validation, bind,
    CartSerializer.to_internal_value.
  destruct (objects_get "MenuItem" _) as [[]|m] eqn:Hget; simpl;
    try discriminate.
  apply objects_get_inr in Hget.
  assert (Hid : mi_id m = CartSerializer.data_menuitem d).
  { assert (Hin : In m (filter (fun m0 => mi_id m0
                                =? CartSerializer.data_menuitem d)
                               (menuitems db))) by (rewrite Hget; now left).
    apply filter_In in Hin. now apply Z.eqb_eq. }
  unfold CartSerializer.run_validators. simpl.
  destruct (qs_exists _) eqn:Hex; simpl; try discriminate.
  unfold CartSerializer.validate. simpl.
  destruct (_ <=? 0) eqn:Hq; simpl; try discriminate.
  intros H. inversion H; subst c db'. clear H.
  exists m. split; [exact Hget|]. split; [exact Hid|].
  split; [|split; [now apply Z.leb_gt | split; reflexivity]].
  intros c0 Hin Hkey. apply qs_exists_false in Hex.
  rewrite filter_nil_iff in Hex. specialize (Hex c0 Hin).
  unfold cart_key in Hkey. inversion Hkey as [[Hu Hm]].
  rewrite Hu, Hm, Hid, !Z.eqb_refl in Hex. discriminate.
Qed.

(** X1. For a customer, [DELETE] on the cart view answers 400 "Cart is
    already empty." and writes nothing when the caller has no cart row;
    otherwise it answers 200, leaves no cart row of the caller, leaves the
    rows of every other user as they were, and the same request again is
    answered 400. *)
Theorem cart_clear (user : User) (d : CartSerializer.Data) (db : DB) :
  has_permission IsCustomer user db = true ->
  (CartView.get_queryset user db = [] ->
   dispatch (CartView.view DELETE user d) db
   = (mkResponse HTTP_400_BAD_REQUEST (Dict "message" "Cart is already empty."),
      db)) /\
  (CartView.get_queryset user db <> [] ->
   exists db',
     dispatch (CartView.view DELETE user d) db
     = (mkResponse HTTP_200_OK NoBody, db') /\
     CartView.get_queryset user db' = [] /\
     (forall v, v <> user_id user ->
                filter (fun c => cart_user c =? v) (carts db')
                = filter (fun c => cart_user c =? v) (carts db)) /\
     dispatch (CartView.view DELETE user d) db'
     = (mkResponse HTTP_400_BAD_REQUEST
          (Dict "message" "Cart is already empty."), db')).
Proof.
  intros Hperm.
  assert (Hempty : forall db0,
             has_permission IsCustomer user db0 = true ->
             CartView.get_queryset user db0 = [] ->
             dispatch (CartView.view DELETE user d) db0
             = (mkResponse HTTP_400_BAD_REQUEST
                  (Dict "message" "Cart is already empty."), db0)).
  { intros db0 Hp Hq. unfold dispatch, CartView.view, bind.
    change (CartView.get_permissions DELETE) with [IsCustomer].
    rewrite (check_permissions_allowed _ _ _ Hp).
    unfold CartView.delete. rewrite Hq. reflexivity. }
  split; [now apply Hempty|].
  intros Hne.
  set (db' := set_carts
                (filter (fun c => negb (cart_user c =? user_id user)) (carts db))
                db).
  assert (Hq' : CartView.get_queryset user db' = []).
  { unfold CartView.get_queryset, db'. simpl.
    apply (filter_filter_negb (fun c => cart_user c =? user_id user)). }
  exists db'. split; [|split; [exact Hq'|split]].
  - unfold dispatch, CartView.view, bind.
    change (CartView.get_permissions DELETE) with [IsCustomer].
    rewrite (check_permissions_allowed _ _ _ Hperm).
    unfold CartView.delete.
    destruct (CartView.get_queryset user db) eqn:E; [congruence|].
    reflexivity.
  - intros v Hv. unfold db'. simpl. now apply filter_other_user.
  - apply Hempty; [|exact Hq'].
    rewrite (has_permission_groups IsCustomer user db db'); [exact Hperm|].
    reflexivity.
Qed.

Lemma cart_clear_witness :
  exists db',
    dispatch (CartView.view DELETE (mkUser 7 "ann" "ann@example.com")
                (CartSerializer.mkData 1 1)) two_carts_example_db
    = (mkResponse HTTP_200_OK NoBody, db') /\
    carts db' = [mkCart 8 2 1 199 199].
Proof.
  destruct (proj2 (cart_clear (mkUser 7 "ann" "ann@example.com")
                     (CartSerializer.mkData 1 1) two_carts_example_db eq_refl))
    as (db' & Hrun & _).
  { discriminate. }
  exists db'. split; [exact Hrun|].
  simpl in Hrun. inversion Hrun. reflexivity.
Defined.

(** X2. For a caller who is not in the customer group, [GET], [POST] and
    [DELETE] on the cart view are answered 403 with the message of
    [IsCustomer], and nothing is written. *)
Theorem cart_view_non_customer (method : Method) (user : User)
        (d : CartSerializer.Data) (db : DB) :
  has_permission IsCustomer user db = false ->
  method = GET \/ method = POST \/ method = DELETE ->
  dispatch (CartView.view method user d) db
  = (mkResponse HTTP_403_FORBIDDEN (Dict "detail" (message IsCustomer)), db).
Proof.
  intros Hperm Hm. unfold dispatch, CartView.view, bind.
  assert (Hps : CartView.get_permissions method = [IsCustomer])
    by (destruct Hm as [-> | [-> | ->]]; reflexivity).
  rewrite Hps, (check_permissions_denied _ _ _ Hperm). reflexivity.
Qed.

Lemma cart_view_non_customer_witness :
  dispatch (CartView.view POST (mkUser 3 "dan" "dan@example.com")
              (CartSerializer.mkData 1 1)) roles_example_db
  = (mkResponse HTTP_403_FORBIDDEN
       (Dict "detail" "You don't have right permission to perform this action."),
     roles_example_db).
Proof.
  apply (cart_view_non_customer POST (mkUser 3 "dan" "dan@example.com")
           (CartSerializer.mkData 1 1) roles_example_db eq_refl).
  right. left. reflexivity.
Defined.

(** X3. When the menu item of the request is a row of the database, the
    caller has no cart row for it and the quantity is positive, saving the
    serializer appends one row: the caller's, for that menu item, with the
    quantity asked, the menu item's price as unit price and their product as
    price; nothing else is written.  For a customer, [POST] on the cart view
    answers 201 with that row. *)
Theorem cart_add_success (u : User) (d : CartSerializer.Data) (db : DB)
        (m : MenuItem) :
  filter (fun m => mi_id m =? CartSerializer.data_menuitem d) (menuitems db) = [m] ->
  (forall c, In c (carts db) ->
             cart_key c <> (user_id u, CartSerializer.data_menuitem d)) ->
  0 < CartSerializer.data_quantity d ->
  let c := mkCart (user_id u) (CartSerializer.data_menuitem d)
                  (CartSerializer.data_quantity d) (mi_price m)
                  (mi_price m * CartSerializer.data_quantity d) in
  CartSerializer.save u d db = (inr c, set_carts (carts db ++ [c]) db) /\
  (has_permission IsCustomer u db = true ->
   dispatch (CartView.view POST u d) db
   = (mkResponse HTTP_201_CREATED (CartBody c),
      set_carts (carts db ++ [c]) db)).
Proof.
  intros Hm Hnone Hq c.
  destruct (to_internal_value_found u d db m Hm) as [Hv Hid].
  assert (Hsave : CartSerializer.save u d db
                  = (inr c, set_carts (carts db ++ [c]) db)).
  { unfold CartSerializer.save, CartSerializer.run_validation, bind.
    rewrite Hv. unfold CartSerializer.run_validators. simpl.
    assert (Hex : filter (fun c => (cart_user c =? user_id u)
                                   && (cart_menuitem c =? mi_id m))
                         (carts db) = []).
    { apply filter_nil_iff. intros c0 Hc0.
      destruct (cart_user c0 =? user_id u) eqn:Eu; [|reflexivity].
      destruct (cart_menuitem c0 =? mi_id m) eqn:Em; [|reflexivity].
      exfalso. apply (Hnone c0 Hc0). unfold cart_key.
      apply Z.eqb_eq in Eu, Em. congruence. }
    rewrite Hex. simpl. unfold CartSerializer.validate. simpl.
    assert (Hle : (CartSerializer.data_quantity d <=? 0) = false)
      by now apply Z.leb_gt.
    rewrite Hle. unfold CartSerializer.create, bind, modify, ret. simpl.
    unfold c. rewrite Hid. reflexivity. }
  split; [exact Hsave|].
  intros Hperm. unfold dispatch, CartView.view, CartView.post, bind.
  change (CartView.get_permissions POST) with [IsCustomer].
  rewrite (check_permissions_allowed _ _ _ Hperm), Hsave. reflexivity.
Qed.

Lemma cart_add_success_witness :
  CartSerializer.save (mkUser 8 "bob" "bob@example.com")
    (CartSerializer.mkData 1 4) two_carts_example_db
  = (inr (mkCart 8 1 4 1000 4000),
     set_carts (carts two_carts_example_db ++ [mkCart 8 1 4 1000 4000])
               two_carts_example_db).
Proof.
  apply (proj1 (cart_add_success (mkUser 8 "bob" "bob@example.com")
                  (CartSerializer.mkData 1 4) two_carts_example_db
                  (mkMenuItem 1 "Pizza" 1000 1 false) eq_refl
                  ltac:(intros c [<- | [<- | [<- | []]]]; discriminate)
                  ltac:(simpl; lia))).
Defined.

(** X4. A save that returns a row makes the same request fail afterwards:
    saving it again raises "Item is already in the cart." and writes
    nothing. *)
Theorem cart_add_twice (u : User) (d : CartSerializer.Data) (db db' : DB)
        (c : Cart) :
  CartSerializer.save u d db = (inr c, db') ->
  forall d',
    CartSerializer.data_menuitem d' = CartSerializer.data_menuitem d ->
    CartSerializer.save u d' db'
    = (inl (ValidationError
              (ErrDict "non_field_errors" ["Item is already in the cart."])),
       db').
Proof.
  intros Hsave d' Hd'.
  destruct (cart_save_inr u d db db' c Hsave)
    as (m & Hm & Hid & _ & _ & Hc & Hdb').
  assert (Hm' : filter (fun m => mi_id m =? CartSerializer.data_menuitem d')
                       (menuitems db') = [m]).
  { rewrite Hdb', Hd'. exact Hm. }
  destruct (to_internal_value_found u d' db' m Hm') as [Hv _].
  unfold CartSerializer.save, CartSerializer.run_validation, bind.
  rewrite Hv. rewrite run_validators_duplicate; [reflexivity|].
  exists c. split.
  - rewrite Hdb'. simpl. apply in_or_app. right. now left.
  - rewrite Hc. reflexivity.
Qed.

Lemma cart_add_twice_witness :
  CartSerializer.save (mkUser 8 "bob" "bob@example.com")
    (CartSerializer.mkData 1 9)
    (set_carts (carts two_carts_example_db ++ [mkCart 8 1 4 1000 4000])
               two_carts_example_db)
  = (inl (ValidationError
            (ErrDict "non_field_errors" ["Item is already in the cart."])),
     set_carts (carts two_carts_example_db ++ [mkCart 8 1 4 1000 4000])
               two_carts_example_db).
Proof.
  apply (cart_add_twice (mkUser 8 "bob" "bob@example.com")
           (CartSerializer.mkData 1 4) two_carts_example_db _
           (mkCart 8 1 4 1000 4000) eq_refl (CartSerializer.mkData 1 9)
           eq_refl).
Defined.

(** X5. The cart view and the orders view keep the cart free of duplicates:
    when no two cart rows have the same user and menu item before a request
    to either, none have afterwards. *)
Theorem cart_unique_kept (cfg : Project) (dflt : OrderDefaults)
        (method : Method) (user : User) (d : CartSerializer.Data)
        (body : OrderPatch) (db : DB) :
  cart_unique db ->
  cart_unique (snd (dispatch (CartView.view method user d) db)) /\
  cart_unique (snd (dispatch (OrdersView.view cfg dflt method user body) db)).
Proof.
  intros Hu. rewrite !snd_dispatch. split.
  - unfold CartView.view.
    destruct (behind_permissions (CartView.get_permissions method) user
                (match method with
                 | GET => CartView.get user
                 | POST => CartView.post user d
                 | DELETE => CartView.delete user
                 | _ => raise MethodNotAllowed
                 end) db) as [H | H]; rewrite H; [exact Hu|].
    destruct method; try exact Hu.
    + unfold CartView.post, bind.
      destruct (CartSerializer.save user d db) as [[e|c] db'] eqn:Hsave.
      * destruct (cart_save_cases user d db) as [[e' He] | [m [_ Hs]]];
          rewrite Hsave in *; [|discriminate].
        inversion He. subst. exact Hu.
      * destruct (cart_save_inr user d db db' c Hsave)
          as (m & _ & Hid & Hnone & _ & Hc & Hdb').
        simpl. rewrite Hdb'. unfold cart_unique. simpl.
        rewrite map_app. simpl.
        apply NoDup_app_remove_l with (l := []). simpl.
        apply Permutation_NoDup with (l := cart_key c :: map cart_key (carts db)).
        { apply Permutation_cons_append. }
        constructor; [|exact Hu].
        intros Hin. apply in_map_iff in Hin. destruct Hin as [c0 [Hk Hin]].
        apply (Hnone c0 Hin). rewrite Hk, Hc. unfold cart_key. simpl.
        now rewrite Hid.
    + unfold CartView.delete.
      destruct (negb _); [exact Hu|]. simpl. unfold cart_unique. simpl.
      now apply cart_keys_filter.
  - unfold OrdersView.view.
    destruct (behind_permissions (OrdersView.get_permissions method) user
                (match method with
                 | GET => OrdersView.list cfg user
                 | POST => OrdersView.post cfg dflt user body
                 | _ => raise MethodNotAllowed
                 end) db) as [H | H]; rewrite H; [exact Hu|].
    destruct method; try exact Hu.
    unfold OrdersView.post, bind, OrderSerializer.run_validation.
    destruct (Order_field_errors cfg false body db); [exact Hu|].
    unfold ret at 1.
    destruct (order_create_cases dflt user db)
      as [[e He] | (order & db' & Hrun & Hc & _)].
    + rewrite He. exact Hu.
    + rewrite Hrun. simpl. unfold cart_unique. rewrite Hc.
      now apply cart_keys_filter.
Qed.

Lemma cart_unique_kept_witness :
  cart_unique
    (snd (dispatch (CartView.view POST (mkUser 8 "bob" "bob@example.com")
                      (CartSerializer.mkData 2 5)) two_carts_example_db)).
Proof.
  apply (proj1 (cart_unique_kept plain_project (mkOrderDefaults None 0 0) POST
                  (mkUser 8 "bob" "bob@example.com")
                  (CartSerializer.mkData 2 5) (mkOrderPatch None None)
                  two_carts_example_db
                  ltac:(unfold cart_unique; simpl;
                        repeat constructor; simpl; intuition discriminate))).
Defined.

(** X6. A request to the cart view never touches the cart rows of another
    user: whatever the method and the body, the rows of every user other
    than the caller are afterwards what they were. *)
Theorem cart_view_other_users (method : Method) (user : User)
        (d : CartSerializer.Data) (db : DB) (v : Z) :
  v <> user_id user ->
  filter (fun c => cart_user c =? v)
         (carts (snd (dispatch (CartView.view method user d) db)))
  = filter (fun c => cart_user c =? v) (carts db).
Proof.
  intros Hv. rewrite snd_dispatch. unfold CartView.view.
  destruct (behind_permissions (CartView.get_permissions method) user
              (match method with
               | GET => CartView.get user
               | POST => CartView.post user d
               | DELETE => CartView.delete user
               | _ => raise MethodNotAllowed
               end) db) as [H | H]; rewrite H; [reflexivity|].
  destruct method; try reflexivity.
  - unfold CartView.post, bind.
    destruct (cart_save_cases user d db) as [[e He] | [m [_ Hs]]].
    + rewrite He. reflexivity.
    + simpl in Hs. rewrite Hs. simpl. rewrite filter_app. simpl.
      assert (Ev : (user_id user =? v) = false) by (apply Z.eqb_neq; congruence).
      rewrite Ev. apply app_nil_r.
  - unfold CartView.delete.
    destruct (negb _); [reflexivity|]. simpl. now apply filter_other_user.
Qed.

Lemma cart_view_other_users_witness :
  filter (fun c => cart_user c =? 8)
         (carts (snd (dispatch (CartView.view DELETE
                                  (mkUser 7 "ann" "ann@example.com")
                                  (CartSerializer.mkData 1 1))
                               two_carts_example_db)))
  = [mkCart 8 2 1 199 199].
Proof.
  rewrite (cart_view_other_users DELETE (mkUser 7 "ann" "ann@example.com")
             (CartSerializer.mkData 1 1) two_carts_example_db 8
             ltac:(simpl; lia)).
  reflexivity.
Defined.

(** *** Orders *)

Lemma order_create_no_rows (dflt : OrderDefaults) (user : User) (db : DB) :
  filter (fun c => cart_user c =? user_id user) (carts db) = [] ->
  OrderSerializer.create dflt user db
  = (inl (ValidationError (ErrList ["Cart is empty"])), db).
Proof.
  intros Hnil. unfold OrderSerializer.create. rewrite Hnil. reflexivity.
Qed.

(** X7. An order can be made of a cart only once: after a [create] that
    returns an order, [create] for the same user raises "Cart is empty" and
    writes nothing, so no second order and no further order item comes of
    the same cart rows. *)
Theorem order_create_twice (dflt : OrderDefaults) (user : User) (db db' : DB)
        (order : Order) :
  OrderSerializer.create dflt user db = (inr order, db') ->
  forall dflt',
    OrderSerializer.create dflt' user db'
    = (inl (ValidationError (ErrList ["Cart is empty"])), db').
Proof.
  intros Hrun dflt'.
  destruct (order_create_cases dflt user db)
    as [[e He] | (order0 & db0 & Hrun0 & Hc & _)]; rewrite Hrun in *;
    [discriminate|].
  inversion Hrun0; subst order0 db0.
  apply order_create_no_rows. rewrite Hc.
  apply (filter_filter_negb (fun c => cart_user c =? user_id user)).
Qed.

Lemma order_create_twice_witness :
  let dflt := mkOrderDefaults None 0 0 in
  let ann := mkUser 7 "ann" "ann@example.com" in
  let db' := snd (OrderSerializer.create dflt ann two_carts_example_db) in
  OrderSerializer.create dflt ann db'
  = (inl (ValidationError (ErrList ["Cart is empty"])), db').
Proof.
  intros dflt ann db'.
  apply (order_create_twice dflt ann two_carts_example_db db'
           (mkOrder 1 7 None 0 2597 0) eq_refl dflt).
Defined.

(** X8. Only customers place orders: for a caller who is not in the customer
    group, [POST] on the orders view is answered 403 with the message of
    [IsCustomer] and nothing is written, whatever is in the caller's cart. *)
Theorem orders_post_non_customer (cfg : Project) (dflt : OrderDefaults)
        (user : User) (body : OrderPatch) (db : DB) :
  has_permission IsCustomer user db = false ->
  dispatch (OrdersView.view cfg dflt POST user body) db
  = (mkResponse HTTP_403_FORBIDDEN (Dict "detail" (message IsCustomer)), db).
Proof.
  intros Hperm. unfold dispatch, OrdersView.view, bind.
  change (OrdersView.get_permissions POST) with [IsCustomer].
  rewrite (check_permissions_denied _ _ _ Hperm). reflexivity.
Qed.

Lemma orders_post_non_customer_witness :
  dispatch (OrdersView.view plain_project (mkOrderDefaults None 0 0) POST
              (mkUser 3 "dan" "dan@example.com") (mkOrderPatch None None))
           roles_example_db
  = (mkResponse HTTP_403_FORBIDDEN
       (Dict "detail" "You don't have right permission to perform this action."),
     roles_example_db).
Proof.
  apply (orders_post_non_customer plain_project (mkOrderDefaults None 0 0)
           (mkUser 3 "dan" "dan@example.com") (mkOrderPatch None None)
           roles_example_db eq_refl).
Defined.

Lemma filter_reordered {A} (p : A -> bool) (l l' : list A) :
  Permutation l l' -> Permutation (filter p l) (filter p l').
Proof.
  intros Hl.
  induction Hl as [|x l l' _ IH|x y l|l l' l'' _ IH1 _ IH2]; simpl.
  - constructor.
  - destruct (p x); [now apply perm_skip | exact IH].
  - destruct (p x), (p y); try apply Permutation_refl. apply perm_swap.
  - now apply Permutation_trans with (filter p l').
Qed.

Lemma filter_queryset_filter_one (cfg : Project) (q : list Order)
      (p : Order -> bool) (o : Order) :
  filters_reorder cfg ->
  filter p q = [o] ->
  filter p (filter_queryset cfg q) = [o].
Proof.
  intros Hf Hq.
  pose proof (filter_reordered p _ _ (Hf q)) as Hperm.
  rewrite Hq in Hperm. apply Permutation_sym in Hperm.
  now apply Permutation_length_1_inv in Hperm.
Qed.

(** X9. A customer who is not a manager cannot retrieve the order of another
    user: when every order of the requested id has another user, [GET] on
    the single-order view answers 404 "Order not found", the same as for an
    id that no order has, and writes nothing. *)
Theorem single_order_of_another (cfg : Project) (user : User) (pk : Z)
        (p : OrderPatch) (db : DB) :
  filters_reorder cfg ->
  has_permission IsCustomer user db = true ->
  has_permission IsManager user db = false ->
  (forall o, In o (orders db) -> order_id o = pk ->
             order_user o <> user_id user) ->
  dispatch (SingleOrderView.view cfg GET user pk p) db
  = (mkResponse HTTP_404_NOT_FOUND (Dict "message" "Order not found"), db).
Proof.
  intros Hf Hc Hm Hother.
  unfold dispatch, SingleOrderView.view, bind.
  change (SingleOrderView.get_permissions cfg GET)
    with [OR (OR IsCustomer IsManager) IsDeliveryCrew].
  rewrite check_permissions_allowed by (simpl in *; now rewrite Hc).
  unfold SingleOrderView.list.
  rewrite (filter_id_miss cfg _ pk Hf); [reflexivity|].
  intros o Ho Hid. simpl in Hc, Hm.
  unfold SingleOrderView.get_queryset in Ho. rewrite Hm, Hc in Ho.
  apply filter_In in Ho. destruct Ho as [Ho Hu].
  apply Z.eqb_eq in Hu. exact (Hother o Ho Hid Hu).
Qed.

Lemma single_order_of_another_witness :
  dispatch (SingleOrderView.view plain_project GET
              (mkUser 4 "nat" "nat@example.com") 1 (mkOrderPatch None None))
           other_customer_example_db
  = (mkResponse HTTP_404_NOT_FOUND (Dict "message" "Order not found"),
     other_customer_example_db).
Proof.
  apply (single_order_of_another plain_project
           (mkUser 4 "nat" "nat@example.com") 1 (mkOrderPatch None None)
           other_customer_example_db plain_project_filters_reorder
           eq_refl eq_refl).
  intros o [<- | [<- | []]] _; discriminate.
Defined.

(** X10. A manager retrieves any order: when exactly one order has the
    requested id, [GET] on the single-order view answers 200 with that order
    and the order items whose order is that id, and writes nothing. *)
Theorem single_order_manager (cfg : Project) (user : User) (pk : Z)
        (p : OrderPatch) (db : DB) (o : Order) :
  filters_reorder cfg ->
  has_permission IsManager user db = true ->
  filter (fun o => order_id o =? pk) (orders db) = [o] ->
  dispatch (SingleOrderView.view cfg GET user pk p) db
  = (mkResponse HTTP_200_OK
       (OrderDataBody
          (mkOrderData o (filter (fun i => oi_order i =? pk) (order_items db)))),
     db).
Proof.
  intros Hf Hm Ho.
  unfold dispatch, SingleOrderView.view, bind.
  change (SingleOrderView.get_permissions cfg GET)
    with [OR (OR IsCustomer IsManager) IsDeliveryCrew].
  rewrite check_permissions_allowed
    by (simpl in *; rewrite Hm; now rewrite orb_true_r).
  unfold SingleOrderView.list.
  assert (Hq : SingleOrderView.get_queryset user db = orders db).
  { unfold SingleOrderView.get_queryset. simpl in Hm. now rewrite Hm. }
  rewrite Hq, (filter_queryset_filter_one cfg _ _ o Hf Ho). reflexivity.
Qed.

Lemma single_order_manager_witness :
  dispatch (SingleOrderView.view plain_project GET
              (mkUser 1 "mia" "mia@example.com") 2 (mkOrderPatch None None))
           roles_example_db
  = (mkResponse HTTP_200_OK
       (OrderDataBody (mkOrderData (mkOrder 2 2 (Some 3) 0 1000 0)
                                   [mkOrderItem 2 1 1 1000 1000])),
     roles_example_db).
Proof.
  apply (single_order_manager plain_project (mkUser 1 "mia" "mia@example.com")
           2 (mkOrderPatch None None) roles_example_db
           (mkOrder 2 2 (Some 3) 0 1000 0) plain_project_filters_reorder
           eq_refl eq_refl).
Defined.

(** X11. On a single order, a caller in none of the three groups is refused
    [GET], and a caller who is neither a manager nor in the delivery crew is
    refused [PATCH]: the answer is 403 and nothing is written, whoever the
    user of the order is. *)
Theorem single_order_forbidden (cfg : Project) (user : User) (pk : Z)
        (p : OrderPatch) (db : DB) :
  has_permission IsManager user db = false ->
  has_permission IsDeliveryCrew user db = false ->
  (exists r, dispatch (SingleOrderView.view cfg PATCH user pk p) db = (r, db) /\
             status_code r = HTTP_403_FORBIDDEN) /\
  (has_permission IsCustomer user db = false ->
   exists r, dispatch (SingleOrderView.view cfg GET user pk p) db = (r, db) /\
             status_code r = HTTP_403_FORBIDDEN).
Proof.
  intros Hm Hd. split.
  - unfold dispatch, SingleOrderView.view, bind.
    change (SingleOrderView.get_permissions cfg PATCH)
      with [OR IsManager IsDeliveryCrew].
    rewrite check_permissions_denied by (simpl in *; now rewrite Hm, Hd).
    eexists. split; reflexivity.
  - intros Hc. unfold dispatch, SingleOrderView.view, bind.
    change (SingleOrderView.get_permissions cfg GET)
      with [OR (OR IsCustomer IsManager) IsDeliveryCrew].
    rewrite check_permissions_denied by (simpl in *; now rewrite Hc, Hm, Hd).
    eexists. split; reflexivity.
Qed.

Lemma single_order_forbidden_witness :
  exists r,
    dispatch (SingleOrderView.view plain_project PATCH
                (mkUser 2 "cal" "cal@example.com") 1
                (mkOrderPatch None (Some 1)))
             roles_example_db
    = (r, roles_example_db) /\
    status_code r = HTTP_403_FORBIDDEN.
Proof.
  apply (proj1 (single_order_forbidden plain_project
                  (mkUser 2 "cal" "cal@example.com") 1
                  (mkOrderPatch None (Some 1)) roles_example_db
                  eq_refl eq_refl)).
Defined.

(** X12. Menu items are written by managers only: for a caller who is not in
    the manager group, [POST] on the menu-items view and [PUT], [PATCH] and
    [DELETE] on the single menu-item view are answered 403 with the message
    of [IsManager], and nothing is written. *)
Theorem menu_items_non_manager (cfg : Project) (method : Method) (user : User)
        (pk : Z) (d : MenuItemData) (db : DB) :
  has_permission IsManager user db = false ->
  dispatch (MenuItemsView.view POST user d) db
  = (mkResponse HTTP_403_FORBIDDEN (Dict "detail" (message IsManager)), db) /\
  (method = PUT \/ method = PATCH \/ method = DELETE ->
   dispatch (SingleMenuItemView.view cfg method user pk d) db
   = (mkResponse HTTP_403_FORBIDDEN (Dict "detail" (message IsManager)), db)).
Proof.
  intros Hm. split.
  - unfold dispatch, MenuItemsView.view, bind.
    change (MenuItemsView.get_permissions POST) with [IsManager].
    rewrite (check_permissions_denied _ _ _ Hm). reflexivity.
  - intros Hmeth. unfold dispatch, SingleMenuItemView.view, bind.
    assert (Hps : SingleMenuItemView.get_permissions method = [IsManager])
      by (destruct Hmeth as [-> | [-> | ->]]; reflexivity).
    rewrite Hps, (check_permissions_denied _ _ _ Hm). reflexivity.
Qed.

Lemma menu_items_non_manager_witness :
  dispatch (SingleMenuItemView.view plain_project PATCH
              (mkUser 2 "cal" "cal@example.com") 1
              (mkMenuItemData "Pizza" 1 1 false))
           roles_example_db
  = (mkResponse HTTP_403_FORBIDDEN
       (Dict "detail" "You don't have right permission to perfom this action."),
     roles_example_db).
Proof.
  apply (proj2 (menu_items_non_manager plain_project PATCH
                  (mkUser 2 "cal" "cal@example.com") 1
                  (mkMenuItemData "Pizza" 1 1 false) roles_example_db eq_refl)).
  right. left. reflexivity.
Defined.

(** *** Rosters *)

Lemma existsb_removed (uid : Z) (l : list Z) :
  existsb (Z.eqb uid) (filter (fun i => negb (i =? uid)) l) = false.
Proof.
  induction l as [|i l IH]; simpl; [reflexivity|].
  destruct (i =? uid) eqn:E; simpl; [exact IH|].
  rewrite Z.eqb_sym, E. exact IH.
Qed.

Lemma existsb_other_removed (uid v : Z) (l : list Z) :
  v <> uid ->
  existsb (Z.eqb v) (filter (fun i => negb (i =? uid)) l) = existsb (Z.eqb v) l.
Proof.
  intros Hv. induction l as [|i l IH]; simpl; [reflexivity|].
  destruct (i =? uid) eqn:E; simpl; [|now rewrite IH].
  apply Z.eqb_eq in E. subst i.
  assert (Hf : (v =? uid) = false) by now apply Z.eqb_neq.
  now rewrite Hf.
Qed.

Lemma existsb_other_added (uid v : Z) (l : list Z) :
  v <> uid -> existsb (Z.eqb v) (l ++ [uid]) = existsb (Z.eqb v) l.
Proof.
  intros Hv. rewrite existsb_app. simpl.
  assert (Hf : (v =? uid) = false) by now apply Z.eqb_neq.
  rewrite Hf. now rewrite !orb_false_r.
Qed.

Lemma qs_exists_map {A B} (f : A -> B) (l : list A) :
  qs_exists (map f l) = qs_exists l.
Proof. destruct l; reflexivity. Qed.

(** Rewriting the groups row by row, with the names kept and the membership
    of a user kept, keeps that user's membership of every group. *)
Lemma is_member_map (f : Group -> Group) (name : string) (w : User) (db : DB) :
  (forall g, group_name (f g) = group_name g) ->
  (forall g, existsb (Z.eqb (user_id w)) (user_set (f g))
             = existsb (Z.eqb (user_id w)) (user_set g)) ->
  is_member name w (set_groups (map f (groups db)) db) = is_member name w db.
Proof.
  intros Hn Hm. unfold is_member, user_groups_filter. simpl.
  induction (groups db) as [|g l IH]; simpl; [reflexivity|].
  rewrite Hn, Hm.
  destruct ((group_name g =? name)%string
            && existsb (Z.eqb (user_id w)) (user_set g)); [reflexivity|].
  exact IH.
Qed.

Lemma filter_one_in {A} (p : A -> bool) (l : list A) (x y : A) :
  filter p l = [x] -> In y l -> p y = true -> y = x.
Proof.
  intros Hf Hin Hp.
  assert (H : In y (filter p l)) by (apply filter_In; now split).
  rewrite Hf in H. destruct H as [H | []]. now symmetry.
Qed.

(** X13. Adding to a roster a username no user has is answered 400 with the
    error naming the username, and nothing is written: no group is made. *)
Theorem roster_post_unknown_user (name username_ : string) (db : DB) :
  filter (fun u => (username u =? username_)%string) (users db) = [] ->
  dispatch (GroupUsersView.post name username_) db
  = (mkResponse HTTP_400_BAD_REQUEST
       (Dict "error" ("User with username " ++ username_ ++ " does not exist")),
     db).
Proof.
  intros Hu. unfold dispatch, GroupUsersView.post. rewrite Hu. reflexivity.
Qed.

Lemma roster_post_unknown_user_witness :
  dispatch (DeliveryCrewView.post "zoe") roster_example_db
  = (mkResponse HTTP_400_BAD_REQUEST
       (Dict "error" "User with username zoe does not exist"),
     roster_example_db).
Proof.
  apply (roster_post_unknown_user "delivery_crew" "zoe" roster_example_db
           eq_refl).
Defined.

(** X14. Adding to a roster the username of a user, when at most one group
    has the roster's name, is answered 201; afterwards the user is a member
    of the group, which is made when it was not there, the membership of
    every other user is what it was, and the users are as they were. *)
Theorem roster_post_member (name username_ : string) (db : DB) (u : User) :
  filter (fun u => (username u =? username_)%string) (users db) = [u] ->
  (List.length (filter (fun g => (group_name g =? name)%string) (groups db))
   <= 1)%nat ->
  exists db',
    dispatch (GroupUsersView.post name username_) db
    = (mkResponse HTTP_201_CREATED
         (Dict "success" ("User " ++ username_ ++ " has been added to "
                          ++ name ++ " group")),
       db') /\
    is_member name u db' = true /\
    (forall w, user_id w <> user_id u ->
               is_member name w db' = is_member name w db) /\
    users db' = users db.
Proof.
  intros Hu Hg.
  set (f := fun gr : Group => fun g : Group =>
              if (group_name g =? group_name gr)%string
              then if existsb (Z.eqb (user_id u)) (user_set g) then g
                   else mkGroup (group_name g) (user_set g ++ [user_id u])
              else g).
  assert (Hfn : forall gr g, group_name (f gr g) = group_name g).
  { intros gr g. unfold f. destruct (_ =? _)%string; [|reflexivity].
    destruct (existsb _ _); reflexivity. }
  assert (Hfo : forall gr w g, user_id w <> user_id u ->
              existsb (Z.eqb (user_id w)) (user_set (f gr g))
              = existsb (Z.eqb (user_id w)) (user_set g)).
  { intros gr w g Hw. unfold f. destruct (_ =? _)%string; [|reflexivity].
    destruct (existsb (Z.eqb (user_id u)) _); [reflexivity|]. simpl.
    now apply existsb_other_added. }
  assert (Hadd : forall gr db1,
             In gr (groups db1) -> group_name gr = name ->
             is_member name u (set_groups (map (f gr) (groups db1)) db1) = true).
  { intros gr db1 Hin Hname. apply qs_exists_true. exists (f gr gr).
    unfold user_groups_filter. apply filter_In. simpl. split.
    - now apply in_map.
    - rewrite Hfn, Hname, String.eqb_refl. simpl. unfold f.
      rewrite String.eqb_refl.
      destruct (existsb (Z.eqb (user_id u)) (user_set gr)) eqn:E; [exact E|].
      simpl. rewrite existsb_app. simpl. rewrite Z.eqb_refl.
      now rewrite orb_true_r. }
  unfold dispatch, GroupUsersView.post. rewrite Hu. simpl objects_get.
  unfold bind, GroupUsersView.get_or_create.
  destruct (filter (fun g => (group_name g =? name)%string) (groups db))
    as [|g [|g' l]] eqn:Hfil; simpl in Hg; [| |lia].
  - (* the group is made *)
    simpl. eexists. split; [reflexivity|].
    set (db1 := set_groups (groups db ++ [mkGroup name []]) db).
    change (set_groups _ db1) with
      (set_groups (map (f (mkGroup name [])) (groups db1)) db1).
    split; [|split; [|reflexivity]].
    + apply Hadd; [|reflexivity]. simpl. apply in_or_app. right. now left.
    + intros w Hw. rewrite is_member_map; [|apply Hfn|intros; now apply Hfo].
      unfold is_member, user_groups_filter, db1. simpl.
      rewrite filter_app. simpl. rewrite andb_false_r. now rewrite app_nil_r.
  - (* the group is there *)
    simpl. eexists. split; [reflexivity|].
    change (set_groups _ db) with (set_groups (map (f g) (groups db)) db).
    assert (Hin : In g (filter (fun g => (group_name g =? name)%string)
                               (groups db))) by (rewrite Hfil; now left).
    apply filter_In in Hin. destruct Hin as [Hin Hname].
    apply String.eqb_eq in Hname.
    split; [now apply Hadd|]. split; [|reflexivity].
    intros w Hw. apply is_member_map; [apply Hfn|intros; now apply Hfo].
Qed.

Lemma roster_post_member_witness :
  exists db',
    dispatch (DeliveryCrewView.post "nat") roster_example_db
    = (mkResponse HTTP_201_CREATED
         (Dict "success" "User nat has been added to delivery_crew group"),
       db') /\
    has_permission IsDeliveryCrew (mkUser 4 "nat" "nat@example.com") db' = true.
Proof.
  destruct (roster_post_member "delivery_crew" "nat" roster_example_db
              (mkUser 4 "nat" "nat@example.com") eq_refl
              ltac:(simpl; lia))
    as (db' & Hrun & Hmem & _).
  exists db'. split; [exact Hrun | exact Hmem].
Defined.

Lemma set_groups_same (db : DB) : set_groups (groups db) db = db.
Proof. destruct db; reflexivity. Qed.

Lemma member_of_the_group (name : string) (u : User) (db : DB) (g : Group) :
  filter (fun g => (group_name g =? name)%string) (groups db) = [g] ->
  is_member name u db = existsb (Z.eqb (user_id u)) (user_set g).
Proof.
  intros Hg. unfold is_member, user_groups_filter.
  assert (H : forall l,
             filter (fun g => (group_name g =? name)%string
                              && existsb (Z.eqb (user_id u)) (user_set g)) l
             = filter (fun g => existsb (Z.eqb (user_id u)) (user_set g))
                      (filter (fun g => (group_name g =? name)%string) l)).
  { induction l as [|a l IH]; simpl; [reflexivity|].
    destruct (group_name a =? name)%string; simpl; [|exact IH].
    destruct (existsb _ _); now rewrite IH. }
  rewrite H, Hg. simpl. destruct (existsb _ _); reflexivity.
Qed.

(** X15. Adding a member again changes nothing: when the user is a member of
    the one group of the roster's name, the request is answered 201 and the
    database is as it was, the user is not put in the group twice. *)
Theorem roster_post_again (name username_ : string) (db : DB) (u : User)
        (g : Group) :
  filter (fun u => (username u =? username_)%string) (users db) = [u] ->
  filter (fun g => (group_name g =? name)%string) (groups db) = [g] ->
  is_member name u db = true ->
  dispatch (GroupUsersView.post name username_) db
  = (mkResponse HTTP_201_CREATED
       (Dict "success" ("User " ++ username_ ++ " has been added to "
                        ++ name ++ " group")),
     db).
Proof.
  intros Hu Hg Hmem.
  rewrite (member_of_the_group name u db g Hg) in Hmem.
  unfold dispatch, GroupUsersView.post. rewrite Hu. simpl objects_get.
  unfold bind, GroupUsersView.get_or_create. rewrite Hg. simpl.
  assert (Hname : group_name g = name).
  { assert (H : In g (filter (fun g => (group_name g =? name)%string)
                             (groups db))) by (rewrite Hg; now left).
    apply filter_In in H. now apply String.eqb_eq. }
  match goal with
  | |- context [map ?f (groups db)] =>
      assert (Hmap : map f (groups db) = groups db)
  end.
  { rewrite <- (map_id (groups db)) at 2. apply map_ext_in.
    intros g0 Hin.
    destruct (group_name g0 =? group_name g)%string eqn:E; [|reflexivity].
    assert (Hg0 : g0 = g).
    { apply (filter_one_in _ _ _ _ Hg Hin). now rewrite <- Hname. }
    subst g0. now rewrite Hmem. }
  rewrite Hmap, set_groups_same. reflexivity.
Qed.

Lemma roster_post_again_witness :
  dispatch (ManagerView.post "mia") roles_example_db
  = (mkResponse HTTP_201_CREATED
       (Dict "success" "User mia has been added to manager group"),
     roles_example_db).
Proof.
  apply (roster_post_again "manager" "mia" roles_example_db
           (mkUser 1 "mia" "mia@example.com") (mkGroup "manager" [1])
           eq_refl eq_refl eq_refl).
Defined.

(** X16. Removing a member from a roster, when the id is one user's and one
    group has the roster's name, is answered 200; afterwards the user is not
    a member of the group, and the membership of every other user is what it
    was. *)
Theorem roster_delete_member (name : string) (pk : Z) (db : DB) (u : User)
        (g : Group) :
  filter (fun u => user_id u =? pk) (users db) = [u] ->
  filter (fun g => (group_name g =? name)%string) (groups db) = [g] ->
  is_member name u db = true ->
  exists db',
    dispatch (GroupUsersView.delete name pk) db
    = (mkResponse HTTP_200_OK
         (Dict "success" ("User " ++ username u ++ " has been removed from "
                          ++ name ++ " group")),
       db') /\
    is_member name u db' = false /\
    (forall w, user_id w <> user_id u ->
               is_member name w db' = is_member name w db).
Proof.
  intros Hu Hg Hmem.
  rewrite (member_of_the_group name u db g Hg) in Hmem.
  destruct (roster_delete_group_present name pk db g Hg) as (_ & _ & Hdel).
  exists (snd (GroupUsersView.user_set_remove g u db)).
  split; [now apply Hdel|].
  assert (Hname : group_name g = name).
  { assert (H : In g (filter (fun g => (group_name g =? name)%string)
                             (groups db))) by (rewrite Hg; now left).
    apply filter_In in H. now apply String.eqb_eq. }
  unfold GroupUsersView.user_set_remove, modify. simpl snd.
  set (f := fun g0 : Group =>
              if (group_name g0 =? group_name g)%string
              then mkGroup (group_name g0)
                           (filter (fun i => negb (i =? user_id u)) (user_set g0))
              else g0).
  assert (Hfn : forall g0, group_name (f g0) = group_name g0).
  { intros g0. unfold f. destruct (_ =? _)%string; reflexivity. }
  split.
  - apply qs_exists_false. unfold user_groups_filter. simpl.
    apply filter_nil_iff. intros g' Hin.
    apply in_map_iff in Hin. destruct Hin as [g0 [<- _]].
    fold (f g0). rewrite Hfn. unfold f. rewrite Hname.
    destruct (group_name g0 =? name)%string; [|reflexivity].
    simpl. apply existsb_removed.
  - intros w Hw. apply (is_member_map f); [exact Hfn|].
    intros g0. unfold f. destruct (_ =? _)%string; [|reflexivity].
    simpl. now apply existsb_other_removed.
Qed.

Lemma roster_delete_member_witness :
  exists db',
    dispatch (ManagerView.delete 1) roles_example_db
    = (mkResponse HTTP_200_OK
         (Dict "success" "User mia has been removed from manager group"),
       db') /\
    has_permission IsManager (mkUser 1 "mia" "mia@example.com") db' = false.
Proof.
  destruct (roster_delete_member "manager" 1 roles_example_db
              (mkUser 1 "mia" "mia@example.com") (mkGroup "manager" [1])
              eq_refl eq_refl eq_refl)
    as (db' & Hrun & Hmem & _).
  exists db'. split; [exact Hrun | exact Hmem].
Defined.

(** X17. Removal from a roster looks the user up first: for an id that no
    user has the answer is 404 with the error naming the id, and nothing is
    written, whether or not a group has the roster's name. *)
Theorem roster_delete_unknown_user (name : string) (pk : Z) (db : DB) :
  filter (fun u => user_id u =? pk) (users db) = [] ->
  dispatch (GroupUsersView.delete name pk) db
  = (mkResponse HTTP_404_NOT_FOUND
       (Dict "error" ("User with id " ++ format_int pk ++ " does not exist")),
     db).
Proof.
  intros Hu. unfold dispatch, GroupUsersView.delete, try_except.
  rewrite Hu. reflexivity.
Qed.

Lemma roster_delete_unknown_user_witness :
  dispatch (DeliveryCrewView.delete 9) roster_example_db
  = (mkResponse HTTP_404_NOT_FOUND
       (Dict "error" "User with id 9 does not exist"),
     roster_example_db).
Proof.
  apply (roster_delete_unknown_user "delivery_crew" 9 roster_example_db
           eq_refl).
Defined.

(** X18. The queryset of a roster: when no group has the roster's name it
    raises [Group.DoesNotExist]; when one group has, it returns, without
    writing, exactly the users who are members of the group and, when a
    [pk] is given, have that id. *)
Theorem roster_get_queryset (name : string) (pk : option Z) (db : DB) :
  (filter (fun g => (group_name g =? name)%string) (groups db) = [] ->
   GroupUsersView.get_queryset name pk db = (inl (DoesNotExist "Group"), db)) /\
  (forall g,
      filter (fun g => (group_name g =? name)%string) (groups db) = [g] ->
      exists l,
        GroupUsersView.get_queryset name pk db = (inr l, db) /\
        forall w,
          In w l <->
          In w (users db) /\
          existsb (Z.eqb (user_id w)) (user_set g) = true /\
          match pk with
          | Some k => user_id w = k
          | None => True
          end).
Proof.
  unfold GroupUsersView.get_queryset. split.
  - intros ->. reflexivity.
  - intros g ->. simpl. destruct pk as [k|]; eexists; (split; [reflexivity|]).
    + intros w. rewrite !filter_In, Z.eqb_eq. tauto.
    + intros w. rewrite filter_In. tauto.
Qed.

Lemma roster_get_queryset_witness :
  GroupUsersView.get_queryset "delivery_crew" None roster_example_db
  = (inl (DoesNotExist "Group"), roster_example_db).
Proof.
  apply (proj1 (roster_get_queryset "delivery_crew" None roster_example_db)).
  reflexivity.
Defined.

(** *** Orders, once made *)

(** X20. The total of a new order is the sum of the prices of its items:
    when [create] returns an order, the order items it has written are the
    items added to the table, each of them refers to that order, and the
    order's total is the sum of their prices. *)
Theorem order_total_of_items (dflt : OrderDefaults) (user : User)
        (db db' : DB) (order : Order) :
  OrderSerializer.create dflt user db = (inr order, db') ->
  exists items,
    order_items db' = order_items db ++ items /\
    Forall (fun i => oi_order i = order_id order) items /\
    order_total order = sum (map oi_price items).
Proof.
  intros Hrun.
  assert (Htotal : order_total order
                   = sum (map cart_price
                              (filter (fun c => cart_user c =? user_id user)
                                      (carts db)))).
  { revert Hrun. unfold OrderSerializer.create.
    destruct (negb _); [discriminate|].
    intros H. inversion H. reflexivity. }
  destruct (order_create_cases dflt user db)
    as [[e He] | (order0 & db0 & Hrun0 & _ & Hi)]; rewrite Hrun in *;
    [discriminate|].
  inversion Hrun0; subst order0 db0.
  exists (map (order_item_of order)
              (filter (fun c => cart_user c =? user_id user) (carts db))).
  split; [exact Hi|]. split.
  - apply Forall_forall. intros i Hin. apply in_map_iff in Hin.
    destruct Hin as [c [<- _]]. reflexivity.
  - rewrite Htotal, map_map. reflexivity.
Qed.

Lemma order_total_of_items_witness :
  exists items,
    order_items (snd (OrderSerializer.create (mkOrderDefaults None 0 0)
                        (mkUser 7 "ann" "ann@example.com")
                        order_create_example_db))
    = order_items order_create_example_db ++ items /\
    Forall (fun i => oi_order i = 1) items /\
    2597 = sum (map oi_price items).
Proof.
  exact (order_total_of_items (mkOrderDefaults None 0 0)
           (mkUser 7 "ann" "ann@example.com") order_create_example_db
           (snd (OrderSerializer.create (mkOrderDefaults None 0 0)
                   (mkUser 7 "ann" "ann@example.com")
                   order_create_example_db))
           (mkOrder 1 7 None 0 2597 0) eq_refl).
Defined.

(** *** Frozen prices *)

Lemma filter_all {A} (rows : list A) : filter (fun _ => true) rows = rows.
Proof. induction rows as [|r rows IH]; simpl; [reflexivity | now rewrite IH]. Qed.

(** Two rows of a table with distinct keys that have the same key are the
    same row. *)
Lemma same_key_same_row {A B} (key : A -> B) (rows : list A) (x y : A) :
  NoDup (map key rows) -> In x rows -> In y rows -> key x = key y -> x = y.
Proof.
  intros Hnd. induction rows as [|r rows IH]; simpl; [contradiction|].
  simpl in Hnd. apply NoDup_cons_iff in Hnd. destruct Hnd as [Hnotin Hnd].
  intros [-> | Hx] [-> | Hy] Hkey; auto.
  - exfalso. apply Hnotin. rewrite Hkey. now apply in_map.
  - exfalso. apply Hnotin. rewrite <- Hkey. now apply in_map.
Qed.

(** Dropping order items keeps the keys of the rest distinct. *)
Lemma item_keys_filter (keep : OrderItem -> bool) (items : list OrderItem) :
  NoDup (map item_key items) -> NoDup (map item_key (filter keep items)).
Proof.
  intros Hnd. induction items as [|i items IH]; simpl; [constructor|].
  simpl in Hnd. apply NoDup_cons_iff in Hnd. destruct Hnd as [Hnotin Hnd].
  destruct (keep i); simpl; [|now apply IH].
  apply NoDup_cons_iff. split; [|now apply IH].
  intros Hin. apply Hnotin. apply in_map_iff in Hin.
  destruct Hin as [x [Hx Hin]]. apply filter_In in Hin.
  apply in_map_iff. exists x. tauto.
Qed.

Lemma removes_rows_frozen (db db' : DB) :
  removes_rows db db' -> rows_frozen db db'.
Proof.
  intros ([keepc Hc] & [keepi Hi] & Hn). split; [|split; [|exact Hn]].
  - exists keepc, []. rewrite app_nil_r. split; [exact Hc|].
    split; [constructor | intros c []].
  - exists keepi, []. rewrite app_nil_r. split; [exact Hi|].
    split; [constructor | intros i []].
Qed.

Lemma same_rows_frozen (db db' : DB) :
  rows_of db' = rows_of db -> rows_frozen db db'.
Proof.
  intros H. unfold rows_of in H. inversion H as [[Hc Hi Hn]].
  apply removes_rows_frozen. split; [|split].
  - exists (fun _ => true). now rewrite filter_all.
  - exists (fun _ => true). now rewrite filter_all.
  - rewrite Hn. apply Z.le_refl.
Qed.

Lemma keeps_rows_frozen {A} (m : M A) (db : DB) :
  keeps_rows m -> rows_frozen db (snd (m db)).
Proof. intros H. apply same_rows_frozen, H. Qed.

Lemma cart_view_frozen (method : Method) (user : User)
      (d : CartSerializer.Data) (db : DB) :
  rows_frozen db (snd (CartView.view method user d db)).
Proof.
  unfold CartView.view.
  destruct (behind_permissions (CartView.get_permissions method) user
              (match method with
               | GET => CartView.get user
               | POST => CartView.post user d
               | DELETE => CartView.delete user
               | _ => raise MethodNotAllowed
               end) db) as [H | H]; rewrite H.
  - now apply same_rows_frozen.
  - destruct method; try (now apply same_rows_frozen).
    + unfold CartView.post, bind.
      destruct (CartSerializer.save user d db) as [[e|c] db'] eqn:Hsave.
      * destruct (cart_save_cases user d db) as [[e' He] | [m [_ Hs]]];
          rewrite Hsave in *; [|discriminate].
        inversion He. now apply same_rows_frozen.
      * destruct (cart_save_inr user d db db' c Hsave)
          as (m & Hm & Hid & Hnone & _ & Hc & Hdb').
        simpl. rewrite Hdb'. split; [|split].
        -- exists (fun _ => true), [c]. simpl. rewrite filter_all.
           split; [reflexivity|].
           split; [repeat constructor; intros []|].
           intros c' [<- | []]. split.
           ++ intros c0 Hin. rewrite Hc. unfold cart_key at 2. simpl.
              rewrite Hid. now apply Hnone.
           ++ exists m. rewrite Hc. simpl. rewrite Hid. auto.
        -- exists (fun _ => true), []. simpl.
           rewrite filter_all, app_nil_r.
           split; [reflexivity|]. split; [constructor | intros i []].
        -- apply Z.le_refl.
    + unfold CartView.delete.
      destruct (negb _); [now apply same_rows_frozen|].
      apply removes_rows_frozen. simpl. split; [|split].
      * eexists. reflexivity.
      * exists (fun _ => true). now rewrite filter_all.
      * apply Z.le_refl.
Qed.

(** What a [create] that returns has done to the rows and to the key
    sequence. *)
Lemma order_create_inr (dflt : OrderDefaults) (user : User) (db db' : DB)
      (order : Order) :
  OrderSerializer.create dflt user db = (inr order, db') ->
  order_id order = next_order_id db /\
  next_order_id db' = next_order_id db + 1 /\
  carts db' = filter (fun c => negb (cart_user c =? user_id user)) (carts db) /\
  order_items db'
  = order_items db
    ++ map (order_item_of order)
           (filter (fun c => cart_user c =? user_id user) (carts db)).
Proof.
  unfold OrderSerializer.create.
  destruct (negb _); [discriminate|].
  intros H. inversion H. subst order db'. clear H.
  cbn [order_id carts order_items next_order_id set_orders set_order_items
       set_carts].
  rewrite fold_left_snoc_map. repeat split.
Qed.

(** The items made of the cart rows of one user have distinct keys when the
    cart rows have. *)
Lemma new_item_keys (order : Order) (uid : Z) (rows : list Cart) :
  NoDup (map cart_key rows) ->
  NoDup (map item_key
             (map (order_item_of order)
                  (filter (fun c => cart_user c =? uid) rows))).
Proof.
  intros Hnd. induction rows as [|r rows IH]; simpl; [constructor|].
  simpl in Hnd. apply NoDup_cons_iff in Hnd. destruct Hnd as [Hnotin Hnd].
  destruct (cart_user r =? uid) eqn:Er; [|now apply IH].
  simpl. apply NoDup_cons_iff. split; [|now apply IH].
  intros Hin. apply Hnotin.
  apply in_map_iff in Hin. destruct Hin as [i [Hi Hin]].
  apply in_map_iff in Hin. destruct Hin as [c [<- Hin]].
  apply filter_In in Hin. destruct Hin as [Hin Ec].
  apply in_map_iff. exists c. split; [|exact Hin].
  apply Z.eqb_eq in Er, Ec. unfold item_key in Hi. simpl in Hi.
  inversion Hi as [Hm]. unfold cart_key. congruence.
Qed.

Lemma orders_view_frozen (cfg : Project) (dflt : OrderDefaults)
      (method : Method) (user : User) (body : OrderPatch) (db : DB) :
  cart_unique db ->
  rows_frozen db (snd (OrdersView.view cfg dflt method user body db)).
Proof.
  intros Hu. unfold OrdersView.view.
  destruct (behind_permissions (OrdersView.get_permissions method) user
              (match method with
               | GET => OrdersView.list cfg user
               | POST => OrdersView.post cfg dflt user body
               | _ => raise MethodNotAllowed
               end) db) as [H | H]; rewrite H.
  - now apply same_rows_frozen.
  - destruct method; try (now apply same_rows_frozen).
    unfold OrdersView.post, bind, OrderSerializer.run_validation.
    destruct (Order_field_errors cfg false body db);
      [now apply same_rows_frozen|].
    unfold ret at 1.
    destruct (OrderSerializer.create dflt user db) as [[e|order] db'] eqn:Hrun.
    + destruct (order_create_cases dflt user db)
        as [[e' He] | (order & db0 & Hrun0 & _)]; rewrite Hrun in *;
        [|discriminate].
      inversion He. now apply same_rows_frozen.
    + destruct (order_create_inr dflt user db db' order Hrun)
        as (Hid & Hnext & Hc & Hi).
      simpl. split; [|split].
      * eexists. exists []. rewrite app_nil_r. split; [exact Hc|].
        split; [constructor | intros c []].
      * exists (fun _ => true). eexists. rewrite filter_all.
        split; [exact Hi|]. split; [now apply new_item_keys|].
        intros i Hin. apply in_map_iff in Hin. destruct Hin as [c [<- Hin]].
        apply filter_In in Hin. destruct Hin as [Hin _].
        split; [exact Hid|]. split; [rewrite Hnext; lia|].
        exists c. simpl. tauto.
      * rewrite Hnext. lia.
Qed.

Lemma single_menu_item_view_frozen (cfg : Project) (method : Method)
      (user : User) (pk : Z) (d : MenuItemData) (db : DB) :
  deletes_only cfg ->
  rows_frozen db (snd (SingleMenuItemView.view cfg method user pk d db)).
Proof.
  intros [_ Hdel]. unfold SingleMenuItemView.view.
  destruct (behind_permissions (SingleMenuItemView.get_permissions method) user
              (match method with
               | GET =>
                   (instance <- SingleMenuItemView.get_object pk ;;
                    ret (mkResponse HTTP_200_OK (MenuItemBody instance)))%handler
               | PUT | PATCH => SingleMenuItemView.update pk d
               | DELETE => SingleMenuItemView.destroy cfg pk
               | POST => raise MethodNotAllowed
               end) db) as [H | H]; rewrite H.
  - now apply same_rows_frozen.
  - destruct method;
      try solve [apply keeps_rows_frozen;
                 first [apply keeps_rows_menu_item_update
                       | unfold SingleMenuItemView.get_object;
                         auto 10 with rows]].
    unfold SingleMenuItemView.destroy, SingleMenuItemView.get_object, bind,
      get_db, get_object_or_404.
    destruct (objects_get "MenuItem" _) as [[]|m];
      try (now apply same_rows_frozen).
    simpl. apply removes_rows_frozen, Hdel.
Qed.

Lemma single_order_view_frozen (cfg : Project) (method : Method)
      (user : User) (pk : Z) (p : OrderPatch) (db : DB) :
  deletes_only cfg ->
  rows_frozen db (snd (SingleOrderView.view cfg method user pk p db)).
Proof.
  intros [Hdel _]. unfold SingleOrderView.view.
  destruct (behind_permissions (SingleOrderView.get_permissions cfg method) user
              (match method with
               | GET => SingleOrderView.list cfg user pk
               | PUT => SingleOrderView.update cfg false user pk p
               | PATCH => SingleOrderView.update cfg true user pk p
               | DELETE => SingleOrderView.destroy cfg user pk
               | POST => raise MethodNotAllowed
               end) db) as [H | H]; rewrite H.
  - now apply same_rows_frozen.
  - destruct method;
      try solve [apply keeps_rows_frozen;
                 first [apply keeps_rows_order_update
                       | apply keeps_rows_order_list
                       | auto with rows]].
    unfold SingleOrderView.destroy, SingleOrderView.get_object, bind,
      get_db, get_object_or_404.
    destruct (objects_get "Order" _) as [[]|o];
      try (now apply same_rows_frozen).
    simpl. apply removes_rows_frozen, Hdel.
Qed.

Lemma step_frozen (cfg : Project) (dflt : OrderDefaults) (ev : Event) (db : DB) :
  deletes_only cfg -> cart_unique db -> rows_frozen db (step cfg dflt ev db).
Proof.
  intros Hdel Hu. unfold step. rewrite snd_dispatch.
  destruct ev; simpl handle.
  - apply cart_view_frozen.
  - apply keeps_rows_frozen, keeps_rows_roster_view.
  - apply keeps_rows_frozen, keeps_rows_menu_items.
  - now apply single_menu_item_view_frozen.
  - now apply orders_view_frozen.
  - now apply single_order_view_frozen.
Qed.

(** Rows that no request rewrites keep their prices right. *)
Lemma rows_frozen_invariant (db db' : DB) :
  price_invariant db -> rows_frozen db db' -> price_invariant db'.
Proof.
  intros [Hc Hi] ((keepc & newc & Ec & _ & Fc) & (keepi & newi & Ei & _ & Fi) & _).
  rewrite Forall_forall in Hc, Hi.
  split; apply Forall_forall.
  - intros c H. rewrite Ec in H. apply in_app_or in H. destruct H as [H | H].
    + apply filter_In in H. now apply Hc.
    + destruct (Fc c H) as [_ [m [_ [_ Hp]]]]. exact Hp.
  - intros i H. rewrite Ei in H. apply in_app_or in H. destruct H as [H | H].
    + apply filter_In in H. now apply Hi.
    + destruct (Fi i H) as (_ & _ & c & Hin & _ & Hq & Hu & Hp).
      unfold order_item_ok. rewrite Hp, Hu, Hq. now apply Hc.
Qed.

(** Rows that no request rewrites keep their keys distinct. *)
Lemma rows_frozen_keyed (db db' : DB) :
  rows_keyed db -> rows_frozen db db' -> rows_keyed db'.
Proof.
  intros (Hu & Hk & Hlt)
         ((keepc & newc & Ec & Nc & Fc) & (keepi & newi & Ei & Ni & Fi) & Hn).
  rewrite Forall_forall in Hlt.
  split; [|split].
  - unfold cart_unique. rewrite Ec, map_app.
    apply NoDup_app; [now apply cart_keys_filter | exact Nc|].
    intros k Hin Hin'.
    apply in_map_iff in Hin. destruct Hin as [c0 [Hk0 Hin]].
    apply in_map_iff in Hin'. destruct Hin' as [c [Hkc Hin']].
    apply filter_In in Hin. destruct Hin as [Hin _].
    destruct (Fc c Hin') as [Hfresh _]. apply (Hfresh c0 Hin). congruence.
  - rewrite Ei, map_app.
    apply NoDup_app; [now apply item_keys_filter | exact Ni|].
    intros k Hin Hin'.
    apply in_map_iff in Hin. destruct Hin as [i0 [Hk0 Hin]].
    apply in_map_iff in Hin'. destruct Hin' as [i [Hki Hin']].
    apply filter_In in Hin. destruct Hin as [Hin _].
    destruct (Fi i Hin') as (Hid & _ & _). specialize (Hlt i0 Hin).
    unfold item_key in *. subst k. inversion Hki. lia.
  - apply Forall_forall. intros i H. rewrite Ei in H.
    apply in_app_or in H. destruct H as [H | H].
    + apply filter_In in H. destruct H as [H _]. specialize (Hlt i H). lia.
    + destruct (Fi i H) as (Hid & Hnext & _). lia.
Qed.

(** A row that was there and a row that is there with the same key are the
    same row. *)
Lemma rows_frozen_unchanged (db db' : DB) :
  rows_keyed db -> rows_frozen db db' ->
  (forall c c', In c (carts db) -> In c' (carts db') ->
                cart_key c' = cart_key c -> c' = c) /\
  (forall i i', In i (order_items db) -> In i' (order_items db') ->
                item_key i' = item_key i -> i' = i).
Proof.
  intros (Hu & Hk & Hlt)
         ((keepc & newc & Ec & _ & Fc) & (keepi & newi & Ei & _ & Fi) & _).
  rewrite Forall_forall in Hlt. split.
  - intros c c' Hc Hc' Hkey. rewrite Ec in Hc'.
    apply in_app_or in Hc'. destruct Hc' as [Hc' | Hc'].
    + apply filter_In in Hc'. destruct Hc' as [Hc' _].
      exact (same_key_same_row cart_key (carts db) c' c Hu Hc' Hc Hkey).
    + exfalso. destruct (Fc c' Hc') as [Hfresh _].
      apply (Hfresh c Hc). now symmetry.
  - intros i i' Hi Hi' Hkey. rewrite Ei in Hi'.
    apply in_app_or in Hi'. destruct Hi' as [Hi' | Hi'].
    + apply filter_In in Hi'. destruct Hi' as [Hi' _].
      exact (same_key_same_row item_key (order_items db) i' i Hk Hi' Hi Hkey).
    + exfalso. destruct (Fi i' Hi') as (Hid & _ & _). specialize (Hlt i Hi).
      unfold item_key in Hkey. inversion Hkey. lia.
Qed.

Lemma plain_project_deletes_only : deletes_only plain_project.
Proof.
  split; intros x db; simpl; (split; [|split]);
    first [apply Z.le_refl
          | eexists; reflexivity
          | exists (fun _ => true); now rewrite filter_all].
Qed.

Lemma reachable_run_trace (cfg : Project) (dflt : OrderDefaults)
      (evs : list Event) (db : DB) :
  reachable cfg dflt db -> reachable cfg dflt (run_trace cfg dflt evs db).
Proof.
  revert db. induction evs as [|ev evs IH]; intros db Hdb; simpl.
  - exact Hdb.
  - apply IH. now constructor.
Qed.

Lemma reachable_invariants (cfg : Project) (dflt : OrderDefaults) (db : DB) :
  deletes_only cfg -> reachable cfg dflt db ->
  price_invariant db /\ rows_keyed db.
Proof.
  intros Hdel Hreach.
  induction Hreach as [db Hc Hi | db ev Hreach [IHp IHk]].
  - unfold price_invariant, rows_keyed, cart_unique. rewrite Hc, Hi. simpl.
    repeat split; constructor.
  - assert (Hf : rows_frozen db (step cfg dflt ev db))
      by (apply step_frozen; [exact Hdel | apply IHk]).
    split.
    + now apply (rows_frozen_invariant db).
    + now apply (rows_frozen_keyed db).
Qed.

(** C5, as amended. In every database the API reaches from one with no cart
    row and no order item, each cart row and each order item has
    [price = unit_price * quantity], no two cart rows have the same user and
    menu item, and no two order items have the same order and menu item.
    Whatever request comes next, the cart rows afterwards are cart rows that
    were there, each as it was, followed by new ones, and a new one has a
    user and menu item that no cart row had and the price the menu item of
    its key has before the request as its unit price; the order items
    afterwards are order items that were there, each as it was, followed by
    new ones, and a new one belongs to the order that is being made and has
    the menuitem, quantity, unit price and price of a cart row that was
    there.  So a cart row afterwards with the user and menu item of a cart
    row before is that row, with the unit price and price it had, and the
    same holds of order items by order and menu item. *)
Theorem price_frozen (cfg : Project) (dflt : OrderDefaults) (db : DB) :
  deletes_only cfg ->
  reachable cfg dflt db ->
  price_invariant db /\
  rows_keyed db /\
  (forall ev,
      rows_frozen db (step cfg dflt ev db) /\
      (forall c c',
          In c (carts db) -> In c' (carts (step cfg dflt ev db)) ->
          cart_key c' = cart_key c -> c' = c) /\
      (forall i i',
          In i (order_items db) -> In i' (order_items (step cfg dflt ev db)) ->
          item_key i' = item_key i -> i' = i)).
Proof.
  intros Hdel Hreach.
  destruct (reachable_invariants cfg dflt db Hdel Hreach) as [Hp Hk].
  split; [exact Hp|]. split; [exact Hk|].
  intros ev.
  assert (Hf : rows_frozen db (step cfg dflt ev db))
    by (apply step_frozen; [exact Hdel | apply Hk]).
  split; [exact Hf|].
  now apply rows_frozen_unchanged.
Qed.

Lemma price_frozen_witness :
  let dflt := mkOrderDefaults None 0 0 in
  let db := run_trace plain_project dflt price_edit_trace fresh_example_db in
  price_invariant db /\
  rows_frozen db (step plain_project dflt cal_orders db).
Proof.
  intros dflt db.
  destruct (price_frozen plain_project dflt db plain_project_deletes_only
              (reachable_run_trace plain_project dflt price_edit_trace
                 fresh_example_db
                 (reachable_init plain_project dflt fresh_example_db
                    eq_refl eq_refl)))
    as (Hinv & _ & Hfrozen).
  split; [exact Hinv | apply Hfrozen].
Defined.

(** C5 as the claim has it fails for order items: the order item written
    when the customer orders has the unit price of the cart row, 10.00, and
    the price of its menu item is 12.00 at that moment. *)
Lemma price_frozen_counterexample :
  let dflt := mkOrderDefaults None 0 0 in
  let db := run_trace plain_project dflt price_edit_trace fresh_example_db in
  let db' := step plain_project dflt cal_orders db in
  reachable plain_project dflt db /\
  menuitems db = [mkMenuItem 1 "Pizza" 1200 1 false] /\
  menuitems db' = [mkMenuItem 1 "Pizza" 1200 1 false] /\
  order_items db = [] /\
  order_items db' = [mkOrderItem 1 1 2 1000 2000] /\
  (exists i m,
      In i (order_items db') /\ ~ In i (order_items db) /\
      filter (fun m => mi_id m =? oi_menuitem i) (menuitems db) = [m] /\
      oi_unit_price i <> mi_price m).
Proof.
  intros dflt db db'.
  split.
  { apply reachable_run_trace. now constructor. }
  repeat (split; [reflexivity|]).
  exists (mkOrderItem 1 1 2 1000 2000), (mkMenuItem 1 "Pizza" 1200 1 false).
  split; [now left|].
  split; [intros []|].
  split; [reflexivity | discriminate].
Qed.

(** Writing the current menu price over the cart row of the trace is not
    something [rows_frozen] lets through. *)
Lemma repriced_row_not_frozen :
  let dflt := mkOrderDefaults None 0 0 in
  let db := run_trace plain_project dflt price_edit_trace fresh_example_db in
  carts db = [mkCart 2 1 2 1000 2000] /\
  cart_created_in db (mkCart 2 1 2 1200 2400) /\
  ~ rows_frozen db (set_carts [mkCart 2 1 2 1200 2400] db).
Proof.
  intros dflt db. split; [reflexivity|]. split.
  - exists (mkMenuItem 1 "Pizza" 1200 1 false). repeat split.
  - intros Hf.
    assert (Hk : rows_keyed db).
    { apply (reachable_invariants plain_project dflt db
               plain_project_deletes_only).
      apply reachable_run_trace. now constructor. }
    destruct (rows_frozen_unchanged db _ Hk Hf) as [Hc _].
    specialize (Hc (mkCart 2 1 2 1000 2000) (mkCart 2 1 2 1200 2400)
                   (or_introl eq_refl) (or_introl eq_refl) eq_refl).
    discriminate Hc.
Qed.
